(** * SCAR: the AWSLambda function descriptor (Scar/aws_lambda.py)

    A shallow embedding of [Scar/aws_lambda.py]: the name validator
    [is_valid_name], the [AWSLambda] object with its setters, the
    attribute-binding pass [set_attributes], the configuration file store
    and the archive builder, followed by the properties proved of them.

    Modelling conventions.
    - A Python [str] is a Rocq [string]; its characters are the code points
      below 256.  On these the regex class [\d] is exactly [0-9].
    - A Python object is the dictionary of its instance attributes
      ([gmap string pyval]); a [dict] value is an insertion-ordered
      association list with unique keys.
    - Effects are threaded through a state-and-outcome monad [M]: a call
      returns, raises an exception ([Raise]) or terminates the process
      ([Exit], Python's [SystemExit], which [except Exception] does not
      catch). *)

From Stdlib Require Import ZArith Ascii String List Bool Lia.
From Stdlib Require Import DecimalString DecimalZ.
From stdpp Require Import gmap strings list.

Set Warnings "-register-all".
Local Open Scope string_scope.
Local Open Scope Z_scope.

(** ** Python values *)

Inductive OutputType := VERBOSE | JSON | TABLE | PLAIN_TEXT.

Inductive pyval :=
| VNone
| VBool (b : bool)
| VInt (z : Z)
| VStr (s : string)
| VList (l : list pyval)
| VDict (d : list (string * pyval))
| VEnum (o : OutputType)
| VFunc (name : string)                      (* a function or bound method; [__name__] *)
| VFile (path : string)                      (* an open file object *)
| VArchive (entries : list (string * string)) (* zip bytes: (archive name, source path) *)
| VObj (tag : string).                       (* an external object, e.g. the client *)

(** Truth value of a Python object, as tested by [if x:] and [not x]. *)
Definition py_truthy (v : pyval) : bool :=
  match v with
  | VNone => false
  | VBool b => b
  | VInt z => negb (z =? 0)
  | VStr s => negb (String.eqb s "")
  | VList l => match l with [] => false | _ => true end
  | VDict d => match d with [] => false | _ => true end
  | VArchive l => match l with [] => false | _ => true end
  | VEnum _ | VFunc _ | VFile _ | VObj _ => true
  end.

(** [v == s] for a string literal [s]. *)
Definition py_eq_str (v : pyval) (s : string) : bool :=
  match v with VStr t => String.eqb t s | _ => false end.

(** ** Outcomes *)

Record exn := Exn { exn_class : string; exn_msg : string }.

Inductive result (A : Type) :=
| Ok (a : A)
| Raise (e : exn)
| Exit (code : Z).
Arguments Ok {A} a.
Arguments Raise {A} e.
Arguments Exit {A} code.

(** ** Regular expressions, matched the way Python's [re] does

    [rmatch r s] lists the remainders of [s] after each way of matching [r]
    at its start, in the order in which the backtracking matcher tries
    them: an optional group is tried before it is skipped, repetitions are
    greedy, alternatives go left to right.  [re.match] returns the first. *)

Inductive regex :=
| Lit (w : list ascii)
| Rep (n : nat) (p : ascii -> bool)
| Star (p : ascii -> bool)
| Plus (p : ascii -> bool)
| Cat (r1 r2 : regex)
| Alt (r1 r2 : regex)
| Opt (r : regex).

Fixpoint strip_prefix (w s : list ascii) : option (list ascii) :=
  match w, s with
  | [], _ => Some s
  | a :: w', c :: s' => if Ascii.eqb a c then strip_prefix w' s' else None
  | _ :: _, [] => None
  end.

Fixpoint rmatch_star (p : ascii -> bool) (s : list ascii) : list (list ascii) :=
  match s with
  | c :: s' => if p c then rmatch_star p s' ++ [s] else [s]
  | [] => [[]]
  end.

Fixpoint rmatch_rep (n : nat) (p : ascii -> bool) (s : list ascii) : list (list ascii) :=
  match n with
  | O => [s]
  | S n' => match s with
            | c :: s' => if p c then rmatch_rep n' p s' else []
            | [] => []
            end
  end.

Fixpoint rmatch (r : regex) (s : list ascii) : list (list ascii) :=
  match r with
  | Lit w => match strip_prefix w s with Some s' => [s'] | None => [] end
  | Rep n p => rmatch_rep n p s
  | Star p => rmatch_star p s
  | Plus p => match s with
              | c :: s' => if p c then rmatch_star p s' else []
              | [] => []
              end
  | Cat r1 r2 => flat_map (rmatch r2) (rmatch r1 s)
  | Alt r1 r2 => rmatch r1 s ++ rmatch r2 s
  | Opt r1 => rmatch r1 s ++ [s]
  end.

(** [pattern.match(s)]: the match object, here its [group()]. *)
Definition re_match (r : regex) (s : string) : option string :=
  let l := list_ascii_of_string s in
  match rmatch r l with
  | rest :: _ => Some (string_of_list_ascii (take (length l - length rest) l))
  | [] => None
  end.

(** Character classes. *)
Definition in_range (lo hi c : ascii) : bool :=
  ((N_of_ascii lo <=? N_of_ascii c) && (N_of_ascii c <=? N_of_ascii hi))%N.
Definition lower (c : ascii) : bool := in_range "a" "z" c.
Definition upper (c : ascii) : bool := in_range "A" "Z" c.
Definition digit (c : ascii) : bool := in_range "0" "9" c.
(** [[a-zA-Z-]] *)
Definition partition_char (c : ascii) : bool :=
  lower c || upper c || Ascii.eqb c "-".
(** [[a-zA-Z0-9-_]]: after the range [0-9] the hyphen is a literal. *)
Definition name_char (c : ascii) : bool :=
  lower c || upper c || digit c || Ascii.eqb c "-" || Ascii.eqb c "_".

Definition lit (s : string) : regex := Lit (list_ascii_of_string s).

(** First group: [arn:], an optional partition ([aws] and any run of
    [[a-zA-Z-]]), then [:lambda:]. *)
Definition re_arn : regex :=
  Cat (lit "arn:")
      (Cat (Opt (Cat (lit "aws") (Star partition_char))) (lit ":lambda:")).
(** Second group, the region: [[a-z]{2}(-gov)?-[a-z]+-\d{1}:]. *)
Definition re_region : regex :=
  Cat (Rep 2 lower)
      (Cat (Opt (lit "-gov"))
           (Cat (lit "-") (Cat (Plus lower) (Cat (lit "-") (Cat (Rep 1 digit) (lit ":")))))).
(** Third group, the account: [\d{12}:]. *)
Definition re_account : regex := Cat (Rep 12 digit) (lit ":").
(** Fourth group: the literal [function:]. *)
Definition re_function : regex := lit "function:".
(** The qualifier: [:] and then [\$LATEST] or [[a-zA-Z0-9-_]+]. *)
Definition re_qualifier : regex :=
  Cat (lit ":") (Alt (lit "$LATEST") (Plus name_char)).
(** The name [[a-zA-Z0-9-_]+] and the optional qualifier. *)
Definition re_name_tail : regex := Cat (Plus name_char) (Opt re_qualifier).

(** The whole pattern: each of the four leading groups is optional. *)
Definition aws_name_regex : regex :=
  Cat (Opt re_arn)
      (Cat (Opt re_region) (Cat (Opt re_account) (Cat (Opt re_function) re_name_tail))).

Definition type_error (msg : string) : exn := Exn "TypeError" msg.

(** [is_valid_name(function_name)] *)
Definition is_valid_name (function_name : pyval) : result pyval :=
  if py_truthy function_name then
    match function_name with
    | VStr s =>
        match re_match aws_name_regex s with
        | Some group => Ok (VBool (String.eqb group s))
        | None => Ok VNone
        end
    | _ => Raise (type_error "expected string or bytes-like object")
    end
  else Ok (VBool false).

(** ** Strings and dictionaries *)

(** [str(n)] and [int(s)] on decimal numerals. [int] also strips blanks and
    accepts [+] and digit-group underscores; those spellings are not
    produced by [str] and are read as malformed here. *)
Definition str_of_Z (z : Z) : string := NilZero.string_of_int (Z.to_int z).
Definition int_of_str (s : string) : option Z :=
  option_map Z.of_int (NilZero.int_of_string s).

(** [s.split(sep)] for a one-character separator. *)
Fixpoint split_on (sep : ascii) (s : string) : list string :=
  match s with
  | EmptyString => [""]
  | String c s' =>
      if Ascii.eqb c sep then "" :: split_on sep s'
      else match split_on sep s' with
           | w :: ws => String c w :: ws
           | [] => [String c ""]
           end
  end.

(** [s[n:]] *)
Fixpoint str_drop (n : nat) (s : string) : string :=
  match n, s with
  | O, _ => s
  | S n', String _ s' => str_drop n' s'
  | S _, EmptyString => ""
  end.

Fixpoint str_last (s : string) : option ascii :=
  match s with
  | EmptyString => None
  | String c EmptyString => Some c
  | String _ s' => str_last s'
  end.

Definition starts_with_slash (s : string) : bool :=
  match s with String c _ => Ascii.eqb c "/" | EmptyString => false end.
Definition ends_with_slash (s : string) : bool :=
  match str_last s with Some c => Ascii.eqb c "/" | None => false end.

(** [os.path.join(a, b)] (posixpath). *)
Definition os_path_join (a b : string) : string :=
  if starts_with_slash b then b
  else if String.eqb a "" || ends_with_slash a then a ++ b
  else a ++ "/" ++ b.

(** A [dict] with string keys: lookup, and assignment [d[k] = v], which
    keeps the position of a key already present. *)
Fixpoint dict_get {V : Type} (k : string) (d : list (string * V)) : option V :=
  match d with
  | [] => None
  | (k', v) :: d' => if String.eqb k' k then Some v else dict_get k d'
  end.

Fixpoint dict_set {V : Type} (k : string) (v : V) (d : list (string * V))
  : list (string * V) :=
  match d with
  | [] => [(k, v)]
  | (k', v') :: d' =>
      if String.eqb k' k then (k, v) :: d' else (k', v') :: dict_set k v d'
  end.

Definition dict_keys {V : Type} (d : list (string * V)) : list string := map fst d.

Definition attribute_error (msg : string) : exn := Exn "AttributeError" msg.
Definition key_error (msg : string) : exn := Exn "KeyError" msg.
Definition index_error (msg : string) : exn := Exn "IndexError" msg.
Definition value_error (msg : string) : exn := Exn "ValueError" msg.
Definition file_not_found (msg : string) : exn := Exn "FileNotFoundError" msg.

(** A subscript: [v['k']] or [v[i]]. *)
Inductive subscript := KStr (k : string) | KIdx (i : nat).

Definition getitem (k : subscript) (v : pyval) : result pyval :=
  match k, v with
  | KStr s, VDict d =>
      match dict_get s d with Some x => Ok x | None => Raise (key_error s) end
  | KIdx i, VList l =>
      match l !! i with
      | Some x => Ok x
      | None => Raise (index_error "list index out of range")
      end
  | _, _ => Raise (type_error "object is not subscriptable")
  end.

Definition setitem (k : subscript) (x : pyval) (v : pyval) : result pyval :=
  match k, v with
  | KStr s, VDict d => Ok (VDict (dict_set s x d))
  | KIdx i, VList l =>
      if decide (i < length l)%nat then Ok (VList (<[i:=x]> l))
      else Raise (index_error "list assignment index out of range")
  | _, _ => Raise (type_error "object does not support item assignment")
  end.

(** [v[k1]...[kn] = x]: the value of [v] after the assignment. The inner
    containers are owned by [v] alone, so updating them in place amounts to
    rebuilding [v]. *)
Fixpoint setitem_path (path : list subscript) (x : pyval) (v : pyval) : result pyval :=
  match path with
  | [] => Ok x
  | [k] => setitem k x v
  | k :: rest =>
      match getitem k v with
      | Ok sub =>
          match setitem_path rest x sub with
          | Ok sub' => setitem k sub' v
          | Raise e => Raise e
          | Exit c => Exit c
          end
      | Raise e => Raise e
      | Exit c => Exit c
      end
  end.

(** ** The world: the object, the file system, the log *)

Inductive content :=
| Text (s : string)
| Ini (cfg : list (string * list (string * string)))  (* sections of a config file *)
| Zip (entries : list (string * string)).             (* a zip archive *)

(** A directory as [os.walk] sees it: its files and its sub-directories. *)
Inductive dirtree := Dir (files : list string) (subdirs : list (string * dirtree)).

Record filesystem := FS {
  fs_files : gmap string content;
  fs_dirs : gmap string dirtree }.

Record world := World {
  self : gmap string pyval;       (* the instance attributes of the AWSLambda object *)
  fs : filesystem;
  log : list (string * string);   (* logging records: level, message *)
  stdout : list string }.

Definition M (A : Type) : Type := world -> result A * world.

Definition ret {A} (a : A) : M A := fun w => (Ok a, w).
Definition bind {A B} (m : M A) (k : A -> M B) : M B :=
  fun w => match m w with
           | (Ok a, w') => k a w'
           | (Raise e, w') => (Raise e, w')
           | (Exit c, w') => (Exit c, w')
           end.
Definition raise {A} (e : exn) : M A := fun w => (Raise e, w).
Definition sys_exit {A} (code : Z) : M A := fun w => (Exit code, w).
Definition lift {A} (r : result A) : M A := fun w => (r, w).

Declare Scope py_scope.
Delimit Scope py_scope with py.
Notation "x <~ e ;; k" := (bind e (fun x => k))
  (at level 100, e at next level, k at level 200, right associativity) : py_scope.
Notation "e ;; k" := (bind e (fun _ => k))
  (at level 100, k at level 200, right associativity) : py_scope.
Local Open Scope py_scope.

(** [try: body except Exception as ex: handler(ex)]. [SystemExit] is not an
    [Exception] and passes through. *)
Definition try_except {A} (body : M A) (handler : exn -> M A) : M A :=
  fun w => match body w with
           | (Ok a, w') => (Ok a, w')
           | (Raise e, w') => handler e w'
           | (Exit c, w') => (Exit c, w')
           end.

Definition getattr (a : string) : M pyval :=
  fun w => match self w !! a with
           | Some v => (Ok v, w)
           | None => (Raise (attribute_error ("'AWSLambda' object has no attribute '" ++ a ++ "'")), w)
           end.
Definition hasattr (a : string) : M bool :=
  fun w => (Ok (bool_decide (is_Some (self w !! a))), w).
Definition setattr (a : string) (v : pyval) : M unit :=
  fun w => (Ok tt, World (<[a:=v]> (self w)) (fs w) (log w) (stdout w)).

Definition logging (level msg : string) : M unit :=
  fun w => (Ok tt, World (self w) (fs w) (log w ++ [(level, msg)]) (stdout w)).
Definition logging_error := logging "ERROR".
Definition logging_warning := logging "WARNING".
Definition print (msg : string) : M unit :=
  fun w => (Ok tt, World (self w) (fs w) (log w) (stdout w ++ [msg])).

Definition get_fs : M filesystem := fun w => (Ok (fs w), w).
Definition put_fs (f : filesystem) : M unit :=
  fun w => (Ok tt, World (self w) f (log w) (stdout w)).

(** ** What the module is given *)

(** The client object [aws_client] (Scar's AWS client, an external
    collaborator). Its methods do not touch the descriptor; each returns,
    raises or terminates the process. *)
Class AWSClient := {
  create_function_name : pyval -> result pyval;
  check_memory : pyval -> result pyval;
  check_time : pyval -> result pyval;
  get_user_name_or_id : result pyval;
  check_function_name_exists : pyval -> result unit;
  check_function_name_not_exists : pyval -> result unit;
  update_function_memory : pyval -> pyval -> result unit;
  update_function_timeout : pyval -> pyval -> result unit;
  update_function_env_variables : pyval -> pyval -> result unit }.

(** The host: paths fixed when the module is loaded, and the library and
    [scar_utils] functions whose results are only passed on. *)
Class Host := {
  home : string;                          (* [os.path.expanduser("~")] *)
  tmpdir : string;                        (* [tempfile.gettempdir()] *)
  scar_abs_path : string;                 (* [get_scar_abs_path()] *)
  json_dumps : pyval -> result string;    (* [json.dumps] *)
  escape_string : pyval -> result pyval;  (* [scar_utils.escape_string] *)
  escape_list : pyval -> result pyval;    (* [scar_utils.escape_list] *)
  repr_object : pyval -> string }.        (* [str] of containers and objects *)

Section Descriptor.
Context `{Client : AWSClient} `{Hst : Host}.

Definition config_file_folder : string := home ++ "/.scar".
Definition config_file_name : string := "scar.cfg".
Definition config_file_path : string := config_file_folder ++ "/" ++ config_file_name.

(** [str(v)] *)
Definition py_str (v : pyval) : string :=
  match v with
  | VNone => "None"
  | VBool true => "True"
  | VBool false => "False"
  | VInt z => str_of_Z z
  | VStr s => s
  | _ => repr_object v
  end.

(** Modelled from the spec: [scar_utils.finish_failed_execution] is not part
    of this file; a validation failure terminates the run at once with a
    failure exit status. *)
Definition finish_failed_execution : M unit := sys_exit 1.

(** Modelled from the spec: [scar_utils.finish_successful_execution] is not
    part of this file; it terminates the run with exit code 0. *)
Definition finish_successful_execution : M unit := sys_exit 0.

(** [AWSLambda.__init__] *)
Definition init_self : gmap string pyval :=
  list_to_map
    [ ("asynchronous_call", VBool false);
      ("aws_client", VObj "aws_client");
      ("code", VNone);
      ("container_arguments", VNone);
      ("delete_all", VBool false);
      ("description", VStr "Automatically generated lambda function");
      ("environment", VDict [("Variables", VDict [])]);
      ("event", VDict [("Records",
          VList [VDict [("eventSource", VStr "aws:s3");
                        ("s3", VDict [("bucket", VDict [("name", VStr "")]);
                                      ("object", VDict [("key", VStr "")])])]])]);
      ("event_source", VNone);
      ("extra_payload", VNone);
      ("function_arn", VNone);
      ("handler", VNone);
      ("image_id", VNone);
      ("invocation_type", VStr "RequestResponse");
      ("log_group_name", VNone);
      ("log_retention_policy_in_days", VInt 30);
      ("log_stream_name", VNone);
      ("log_type", VStr "Tail");
      ("memory", VInt 512);
      ("name", VNone);
      ("output", VEnum PLAIN_TEXT);
      ("payload", VStr "{}");
      ("recursive", VBool false);
      ("region", VStr "us-east-1");
      ("request_id", VNone);
      ("role", VNone);
      ("runtime", VStr "python3.6");
      ("scar_call", VNone);
      ("script", VNone);
      ("tags", VDict []);
      ("time", VInt 300);
      ("timeout_threshold", VInt 10);
      ("udocker_dir", VStr "/tmp/home/.udocker");
      ("udocker_tarball", VStr "/var/task/udocker-1.1.0-RC2.tar.gz");
      ("zip_file_path", VStr (os_path_join tmpdir "function.zip")) ].

Definition set_log_stream_name (stream_name : pyval) : M unit :=
  setattr "log_stream_name" stream_name.

Definition set_request_id (request_id : pyval) : M unit :=
  setattr "request_id" request_id.

Definition set_payload (payload : pyval) : M unit :=
  s <~ lift (json_dumps payload) ;;
  setattr "payload" (VStr s).

Definition set_cont_args (container_arguments : pyval) : M unit :=
  setattr "container_arguments" container_arguments.

Definition set_asynchronous_call_parameters : M unit :=
  setattr "asynchronous_call" (VBool true) ;;
  setattr "invocation_type" (VStr "Event") ;;
  setattr "log_type" (VStr "None").

Definition set_request_response_call_parameters : M unit :=
  setattr "asynchronous_call" (VBool false) ;;
  setattr "invocation_type" (VStr "RequestResponse") ;;
  setattr "log_type" (VStr "Tail").

Definition set_async (asynchronous_call : pyval) : M unit :=
  if py_truthy asynchronous_call then set_asynchronous_call_parameters
  else set_request_response_call_parameters.

Definition set_func (scar_call : pyval) : M unit :=
  match scar_call with
  | VFunc name => setattr "scar_call" (VStr name)
  | _ => raise (attribute_error "object has no attribute '__name__'")
  end.

Definition invalid_name_message (name : pyval) : string :=
  "'" ++ py_str name ++ "' is an invalid lambda function name.".

Definition set_name (name : pyval) : M unit :=
  valid <~ lift (is_valid_name name) ;;
  (if negb (py_truthy valid) then
     print (invalid_name_message name) ;;
     logging_error (invalid_name_message name) ;;
     finish_failed_execution
   else ret tt) ;;
  setattr "name" name.

Definition set_image_id (image_id : pyval) : M unit :=
  setattr "image_id" image_id ;;
  has_name <~ hasattr "name" ;;
  unnamed <~ (if negb has_name then ret true
              else name <~ getattr "name" ;; ret (py_eq_str name "")) ;;
  if (unnamed : bool) then
    name <~ lift (create_function_name image_id) ;;
    set_name name
  else ret tt.

Definition set_memory (memory : pyval) : M unit :=
  v <~ lift (check_memory memory) ;;
  setattr "memory" v.

Definition set_time (time : pyval) : M unit :=
  v <~ lift (check_time time) ;;
  setattr "time" v.

Definition set_timeout_threshold (timeout_threshold : pyval) : M unit :=
  setattr "timeout_threshold" timeout_threshold.

Definition set_json (json : pyval) : M unit :=
  if py_truthy json then setattr "output" (VEnum JSON) else ret tt.

Definition set_verbose (verbose : pyval) : M unit :=
  if py_truthy verbose then setattr "output" (VEnum VERBOSE) else ret tt.

Definition set_script (script : pyval) : M unit := setattr "script" script.

Definition set_event_source (event_source : pyval) : M unit :=
  setattr "event_source" event_source ;;
  event <~ getattr "event" ;;
  event' <~ lift (setitem_path
                    [KStr "Records"; KIdx 0; KStr "s3"; KStr "bucket"; KStr "name"]
                    event_source event) ;;
  setattr "event" event'.

Definition set_event_source_file_name (file_name : pyval) : M unit :=
  event <~ getattr "event" ;;
  event' <~ lift (setitem_path
                    [KStr "Records"; KIdx 0; KStr "s3"; KStr "object"; KStr "key"]
                    file_name event) ;;
  setattr "event" event'.

Definition set_lambda_role (lambda_role : pyval) : M unit :=
  setattr "lambda_role" lambda_role.

Definition set_recursive (recursive : pyval) : M unit := setattr "recursive" recursive.

Definition set_preheat (preheat : pyval) : M unit := setattr "preheat" preheat.

Definition set_extra_payload (extra_payload : pyval) : M unit :=
  setattr "extra_payload" extra_payload.

(** [self.environment['Variables'][key] = value] *)
Definition set_evironment_variable (key : string) (value : pyval) : M unit :=
  environment <~ getattr "environment" ;;
  environment' <~ lift (setitem_path [KStr "Variables"; KStr key] value environment) ;;
  setattr "environment" environment'.

Definition set_required_environment_variables : M unit :=
  udocker_dir <~ getattr "udocker_dir" ;;
  set_evironment_variable "UDOCKER_DIR" udocker_dir ;;
  udocker_tarball <~ getattr "udocker_tarball" ;;
  set_evironment_variable "UDOCKER_TARBALL" udocker_tarball ;;
  timeout_threshold <~ getattr "timeout_threshold" ;;
  set_evironment_variable "TIMEOUT_THRESHOLD" (VStr (py_str timeout_threshold)) ;;
  recursive <~ getattr "recursive" ;;
  set_evironment_variable "RECURSIVE" (VStr (py_str recursive)) ;;
  image_id <~ getattr "image_id" ;;
  set_evironment_variable "IMAGE_ID" image_id.

(** The items of [for x in v]. Lists, strings and dictionaries are covered;
    an argument list never holds a file object or bytes. *)
Definition py_iter (v : pyval) : result (list pyval) :=
  match v with
  | VList l => Ok l
  | VStr s => Ok (map (fun c => VStr (String c "")) (list_ascii_of_string s))
  | VDict d => Ok (map VStr (dict_keys d))
  | _ => Raise (type_error "object is not iterable")
  end.

(** The body of the loop of [set_environment_variables]. *)
Definition set_environment_variable_from (env_var : pyval) : M unit :=
  match env_var with
  | VStr s =>
      let parsed_env_var := split_on "=" s in
      match parsed_env_var with
      | k :: v :: _ => set_evironment_variable ("CONT_VAR_" ++ k) (VStr v)
      | _ => raise (index_error "list index out of range")
      end
  | _ => raise (attribute_error "object has no attribute 'split'")
  end.

Fixpoint for_each {A} (body : A -> M unit) (l : list A) : M unit :=
  match l with
  | [] => ret tt
  | x :: l' => body x ;; for_each body l'
  end.

Definition set_environment_variables (variables : pyval) : M unit :=
  items <~ lift (py_iter variables) ;;
  for_each set_environment_variable_from items.

Definition set_tags : M unit :=
  tags <~ getattr "tags" ;;
  tags' <~ lift (setitem (KStr "createdby") (VStr "scar") tags) ;;
  setattr "tags" tags' ;;
  owner <~ lift get_user_name_or_id ;;
  tags <~ getattr "tags" ;;
  tags' <~ lift (setitem (KStr "owner") owner tags) ;;
  setattr "tags" tags'.

Definition set_all (value : pyval) : M unit := setattr "delete_all" value.

Definition role_missing_message : string :=
  "Please, specify first a lambda role in the '" ++ config_file_folder ++ "/"
  ++ config_file_name ++ "' file.".

Definition validate_lambda_configuration : M unit :=
  role <~ getattr "role" ;;
  if negb (py_truthy role) || py_eq_str role "" then
    logging_error role_missing_message ;;
    finish_failed_execution
  else ret tt.

(** [args] is the [__dict__] of the parsed-arguments namespace. *)
Definition get_argument_value (args : list (string * pyval)) (attr : string) : pyval :=
  match dict_get attr args with Some v => v | None => VNone end.

Definition update_function_attributes (args : list (string * pyval)) : M unit :=
  (if py_truthy (get_argument_value args "memory") then
     name <~ getattr "name" ;; memory <~ getattr "memory" ;;
     lift (update_function_memory name memory)
   else ret tt) ;;
  (if py_truthy (get_argument_value args "time") then
     name <~ getattr "name" ;; time <~ getattr "time" ;;
     lift (update_function_timeout name time)
   else ret tt) ;;
  (if py_truthy (get_argument_value args "env") then
     name <~ getattr "name" ;; environment <~ getattr "environment" ;;
     lift (update_function_env_variables name environment)
   else ret tt).

Definition check_function_name : M unit :=
  name <~ getattr "name" ;;
  if py_truthy name then
    scar_call <~ getattr "scar_call" ;;
    if py_eq_str scar_call "init" then lift (check_function_name_exists name)
    else if py_eq_str scar_call "rm" || py_eq_str scar_call "run" then
      lift (check_function_name_not_exists name)
    else ret tt
  else ret tt.

Definition create_payload (key : string) (value : pyval) : pyval := VDict [(key, value)].

(** [f.read()] on a file object. *)
Definition file_read (f : pyval) : M pyval :=
  match f with
  | VFile path =>
      files <~ get_fs ;;
      match fs_files files !! path with
      | Some (Text s) => ret (VStr s)
      | _ => raise (Exn "OSError" path)
      end
  | _ => raise (attribute_error "object has no attribute 'read'")
  end.

Definition get_escaped_script : M pyval :=
  script <~ getattr "script" ;;
  text <~ file_read script ;;
  lift (escape_string text).

Definition get_parsed_cont_args : M pyval :=
  container_arguments <~ getattr "container_arguments" ;;
  lift (escape_list container_arguments).

(** ** The configuration file store *)

Definition os_path_isfile (path : string) : M bool :=
  files <~ get_fs ;;
  ret (bool_decide (is_Some (fs_files files !! path))).

(** [os.makedirs(path, exist_ok=True)] *)
Definition os_makedirs (path : string) : M unit :=
  files <~ get_fs ;;
  if bool_decide (is_Some (fs_files files !! path)) then
    raise (Exn "FileExistsError" path)
  else
    match fs_dirs files !! path with
    | Some _ => ret tt
    | None => put_fs (FS (fs_files files) (<[path:=Dir [] []]> (fs_dirs files)))
    end.

Definition write_file (path : string) (c : content) : M unit :=
  files <~ get_fs ;;
  put_fs (FS (<[path:=c]> (fs_files files)) (fs_dirs files)).

(** [config_parser.read(path)] on a fresh parser: the sections of the file.
    The text layer of [configparser] is not modelled: a config file holds
    its sections, each option with the string [get] returns for it. *)
Definition config_read (path : string) : M (list (string * list (string * string))) :=
  files <~ get_fs ;;
  match fs_files files !! path with
  | Some (Ini cfg) => ret cfg
  | Some _ => raise (Exn "ParsingError" path)
  | None => ret []
  end.

Definition get_default_json_config : M (list (string * pyval)) :=
  description <~ getattr "description" ;;
  memory <~ getattr "memory" ;;
  time <~ getattr "time" ;;
  region <~ getattr "region" ;;
  timeout_threshold <~ getattr "timeout_threshold" ;;
  ret [ ("lambda_description", description);
        ("lambda_memory", memory);
        ("lambda_time", time);
        ("lambda_region", region);
        ("lambda_role", VStr "");
        ("lambda_timeout_threshold", timeout_threshold) ].

(** [config_parser[section] = d] stores [str(value)] for every value. *)
Fixpoint config_values (d : list (string * pyval)) (acc : list (string * string))
  : result (list (string * string)) :=
  match d with
  | [] => Ok acc
  | (k, VNone) :: _ => Raise (type_error "option values must be strings")
  | (k, v) :: d' => config_values d' (dict_set k (py_str v) acc)
  end.

Definition config_created_message (path : string) : string :=
  "Config file '" ++ path ++ "' created.
Please, set first a valid lambda role to be used.".

Definition create_default_config_file
    (config_parser : list (string * list (string * string))) (path : string) : M unit :=
  defaults <~ get_default_json_config ;;
  section <~ lift (config_values defaults []) ;;
  write_file path (Ini (dict_set "scar" section config_parser)) ;;
  logging_warning (config_created_message path) ;;
  finish_successful_execution.

(** [scar_config.get(option, fallback)] and [scar_config.getint(option, fallback)] *)
Definition config_get (section : list (string * string)) (option : string)
    (fallback : pyval) : pyval :=
  match dict_get option section with Some s => VStr s | None => fallback end.

Definition config_getint (section : list (string * string)) (option : string)
    (fallback : pyval) : result pyval :=
  match dict_get option section with
  | Some s =>
      match int_of_str s with
      | Some z => Ok (VInt z)
      | None => Raise (value_error ("invalid literal for int() with base 10: '" ++ s ++ "'"))
      end
  | None => Ok fallback
  end.

Definition parse_config_file_values
    (config_parser : list (string * list (string * string))) : M unit :=
  match dict_get "scar" config_parser with
  | None => raise (key_error "scar")
  | Some scar_config =>
      role <~ getattr "role" ;;
      setattr "role" (config_get scar_config "lambda_role" role) ;;
      region <~ getattr "region" ;;
      setattr "region" (config_get scar_config "lambda_region" region) ;;
      memory <~ getattr "memory" ;;
      memory' <~ lift (config_getint scar_config "lambda_memory" memory) ;;
      setattr "memory" memory' ;;
      time <~ getattr "time" ;;
      time' <~ lift (config_getint scar_config "lambda_time" time) ;;
      setattr "time" time' ;;
      description <~ getattr "description" ;;
      setattr "description" (config_get scar_config "lambda_description" description) ;;
      timeout_threshold <~ getattr "timeout_threshold" ;;
      timeout_threshold' <~ lift (config_getint scar_config "lambda_timeout_threshold"
                                                timeout_threshold) ;;
      setattr "timeout_threshold" timeout_threshold'
  end.

Definition check_config_file : M unit :=
  isfile <~ os_path_isfile config_file_path ;;
  (if (isfile : bool) then
     config_parser <~ config_read config_file_path ;;
     parse_config_file_values config_parser
   else
     os_makedirs config_file_folder ;;
     create_default_config_file [] config_file_path) ;;
  validate_lambda_configuration.

(** ** The archive builder *)

(** The archive at [zip_path] gets one more entry. *)
Definition zip_append (zip_path : string) (arcname source : string) : M unit :=
  files <~ get_fs ;;
  match fs_files files !! zip_path with
  | Some (Zip entries) => write_file zip_path (Zip (entries ++ [(arcname, source)]))
  | _ => raise (Exn "BadZipFile" zip_path)
  end.

(** [zf.write(filename, arcname)] for a file named by the caller. The
    normalisation [zipfile] applies to [arcname] (leading separators, [..])
    leaves the names written here as they are. *)
Definition zip_write (zip_path : string) (filename : pyval) (arcname : string) : M unit :=
  match filename with
  | VStr source =>
      files <~ get_fs ;;
      if bool_decide (is_Some (fs_files files !! source)) then
        zip_append zip_path arcname source
      else raise (file_not_found source)
  | _ => raise (type_error "stat: path should be string, bytes, os.PathLike or integer")
  end.

(** [shutil.copy(src, dst)] *)
Definition shutil_copy (src dst : string) : M unit :=
  files <~ get_fs ;;
  match fs_files files !! src with
  | Some c => write_file dst c
  | None => raise (file_not_found src)
  end.

Definition os_remove (path : string) : M unit :=
  files <~ get_fs ;;
  match fs_files files !! path with
  | Some _ => put_fs (FS (delete path (fs_files files)) (fs_dirs files))
  | None => raise (file_not_found path)
  end.

(** [os.walk(top)], top-down: a directory, then its sub-directories. *)
Fixpoint os_walk (top : string) (t : dirtree) : list (string * list string * list string) :=
  match t with
  | Dir files subdirs =>
      (top, map fst subdirs, files)
      :: flat_map (fun p => match p with
                            | (d, t') => os_walk (os_path_join top d) t'
                            end) subdirs
  end.

(** A directory is found under its path without trailing separators. *)
Fixpoint rstrip_slash (s : string) : string :=
  match s with
  | EmptyString => ""
  | String c s' =>
      match rstrip_slash s' with
      | EmptyString => if Ascii.eqb c "/" then "" else String c ""
      | r => String c r
      end
  end.

Definition walk (top : string) : M (list (string * list string * list string)) :=
  files <~ get_fs ;;
  match fs_dirs files !! rstrip_slash top with
  | Some t => ret (os_walk top t)
  | None => ret []
  end.

Definition zip_folder (zipPath : string) (target_dir : pyval) : M unit :=
  match target_dir with
  | VStr dir =>
      let rootlen := (String.length dir + 1)%nat in
      triples <~ walk dir ;;
      for_each (fun triple =>
        match triple with
        | (base, _, files) =>
            for_each (fun file =>
              let fn := os_path_join base file in
              (* a file the walk lists exists *)
              zip_append zipPath ("extra/" ++ str_drop rootlen fn) fn) files
        end) triples
  | _ => raise (type_error "expected str, bytes or os.PathLike object")
  end.

Definition create_zip_file : M pyval :=
  let scar_dir := scar_abs_path in
  name <~ getattr "name" ;;
  match name with
  | VStr name_str =>
      let function_name := name_str ++ ".py" in
      shutil_copy (scar_dir ++ "/lambda/scarsupervisor.py") function_name ;;
      zip_file_path <~ getattr "zip_file_path" ;;
      match zip_file_path with
      | VStr zip_path =>
          write_file zip_path (Zip []) ;;
          zip_write zip_path (VStr function_name) function_name ;;
          os_remove function_name ;;
          zip_write zip_path (VStr (scar_dir ++ "/lambda/udocker")) "udocker" ;;
          zip_write zip_path (VStr (scar_dir ++ "/lambda/udocker-1.1.0-RC2.tar.gz"))
                    "udocker-1.1.0-RC2.tar.gz" ;;
          script <~ getattr "script" ;;
          (if py_truthy script then
             zip_write zip_path script "init_script.sh" ;;
             set_evironment_variable "INIT_SCRIPT_PATH" (VStr "/var/task/init_script.sh")
           else ret tt) ;;
          extra_payload <~ getattr "extra_payload" ;;
          (if py_truthy extra_payload then
             zip_folder zip_path extra_payload ;;
             set_evironment_variable "EXTRA_PAYLOAD" (VStr "/var/task/extra/")
           else ret tt) ;;
          files <~ get_fs ;;
          match fs_files files !! zip_path with
          | Some (Zip entries) => ret (VArchive entries)
          | _ => raise (file_not_found zip_path)
          end
      | _ => raise (type_error "expected str, bytes or os.PathLike object")
      end
  | _ => raise (type_error "unsupported operand type(s) for +")
  end.

Definition set_code : M unit :=
  zip <~ create_zip_file ;;
  setattr "code" (VDict [("ZipFile", zip)]).

(** ** The attribute binder *)

(** [a + b] on strings. *)
Definition py_concat (a b : pyval) : result pyval :=
  match a, b with
  | VStr x, VStr y => Ok (VStr (x ++ y))
  | _, _ => Raise (type_error "unsupported operand type(s) for +")
  end.

(** What [set_attributes] does after the loop over the arguments. *)
Definition derive_attributes (args : list (string * pyval)) : M unit :=
  check_function_name ;;
  set_required_environment_variables ;;
  name <~ getattr "name" ;;
  (if py_truthy name then
     handler <~ lift (py_concat name (VStr ".lambda_handler")) ;;
     setattr "handler" handler ;;
     name <~ getattr "name" ;;
     log_group_name <~ lift (py_concat (VStr "/aws/lambda/") name) ;;
     setattr "log_group_name" log_group_name
   else ret tt) ;;
  scar_call <~ getattr "scar_call" ;;
  if py_eq_str scar_call "init" then
    set_tags ;;
    set_code
  else if py_eq_str scar_call "run" then
    update_function_attributes args ;;
    (if py_truthy (get_argument_value args "script") then
       script <~ get_escaped_script ;;
       set_payload (create_payload "script" script)
     else ret tt) ;;
    (if py_truthy (get_argument_value args "cont_args") then
       cont_args <~ get_parsed_cont_args ;;
       set_payload (create_payload "cmd_args" cont_args)
     else ret tt)
  else ret tt.

Definition arity_error (method : string) : exn :=
  type_error (method ++ "() called with the wrong number of positional arguments").

(** [v.__dict__] for an argument value [v]: scalars and containers have
    none; the objects that reach the binder (a function, a file object)
    carry no instance attributes of their own. *)
Definition py_vars (v : pyval) : result (list (string * pyval)) :=
  match v with
  | VFunc _ | VFile _ | VEnum _ | VObj _ => Ok []
  | _ => Raise (attribute_error "object has no attribute '__dict__'")
  end.

(** The methods of the class whose name starts with [set_], as
    [getattr(self, 'set_' + attr)] finds them, each applied to one
    argument. No instance attribute has such a name. [set_attributes] is
    listed apart, below. *)
Definition setters : list (string * (pyval -> M unit)) :=
  [ ("set_log_stream_name", set_log_stream_name);
    ("set_request_id", set_request_id);
    ("set_payload", set_payload);
    ("set_cont_args", set_cont_args);
    ("set_async", set_async);
    ("set_func", set_func);
    ("set_asynchronous_call_parameters",
       fun _ => raise (arity_error "set_asynchronous_call_parameters"));
    ("set_request_response_call_parameters",
       fun _ => raise (arity_error "set_request_response_call_parameters"));
    ("set_name", set_name);
    ("set_image_id", set_image_id);
    ("set_memory", set_memory);
    ("set_time", set_time);
    ("set_timeout_threshold", set_timeout_threshold);
    ("set_json", set_json);
    ("set_verbose", set_verbose);
    ("set_script", set_script);
    ("set_event_source", set_event_source);
    ("set_event_source_file_name", set_event_source_file_name);
    ("set_lambda_role", set_lambda_role);
    ("set_recursive", set_recursive);
    ("set_preheat", set_preheat);
    ("set_extra_payload", set_extra_payload);
    ("set_code", fun _ => raise (arity_error "set_code"));
    ("set_evironment_variable", fun _ => raise (arity_error "set_evironment_variable"));
    ("set_required_environment_variables",
       fun _ => raise (arity_error "set_required_environment_variables"));
    ("set_environment_variables", set_environment_variables);
    ("set_tags", fun _ => raise (arity_error "set_tags"));
    ("set_all", set_all) ].

(** [getattr(self, method_name)]. Bound to an argument value,
    [set_attributes] loops over that value's (empty) [__dict__] and then
    derives the attributes. *)
Definition get_method (method_name : string) : M (pyval -> M unit) :=
  if String.eqb method_name "set_attributes" then
    ret (fun value => args <~ lift (py_vars value) ;; derive_attributes args)
  else
    match dict_get method_name setters with
    | Some method => ret method
    | None => raise (attribute_error ("'AWSLambda' object has no attribute '"
                                      ++ method_name ++ "'"))
    end.

(** One turn of the loop of [set_attributes]. *)
Definition bind_attribute (args : list (string * pyval)) (attr : string) : M unit :=
  let value := get_argument_value args attr in
  try_except
    (match value with
     | VNone => ret tt
     | _ =>
         let method_name := "set_" ++ attr in
         method <~ get_method method_name ;;
         method value
     end)
    (fun ex => logging_error (exn_msg ex)).

Definition set_attributes (args : list (string * pyval)) : M unit :=
  for_each (bind_attribute args) (dict_keys args) ;;
  derive_attributes args.

End Descriptor.

(** ** The accessors of the class *)

Definition is_asynchronous : M pyval := getattr "asynchronous_call".

Definition has_event_source : M pyval :=
  event_source <~ getattr "event_source" ;;
  ret (VBool (match event_source with VNone => false | _ => true end)).

Definition has_verbose_output : M pyval := getattr "verbose_output".

Definition has_json_output : M pyval := getattr "json_output".

(** ** The naming grammar, as the specification words it

    A candidate is a bare function name, or a fully-qualified identifier:
    an optional [arn:<partition>:lambda:] prefix, an optional region
    segment, an optional 12-digit account segment, an optional [function:]
    tag, the name, and an optional qualifier. *)

Definition chars (s : string) : list ascii := list_ascii_of_string s.

Local Open Scope list_scope.














(** ** Observations and proof notions *)

Local Open Scope string_scope.

(** [self.environment['Variables']] *)
Definition env_variables (w : world) : option (list (string * pyval)) :=
  match self w !! "environment" with
  | Some (VDict d) =>
      match dict_get "Variables" d with
      | Some (VDict vars) => Some vars
      | _ => None
      end
  | _ => None
  end.

(** The world with one more logging record. *)
Definition logged (level msg : string) (w : world) : world :=
  World (self w) (fs w) (log w ++ [(level, msg)]) (stdout w).

(** The world with one attribute assigned. *)
Definition assigned (a : string) (v : pyval) (w : world) : world :=
  World (<[a:=v]> (self w)) (fs w) (log w) (stdout w).

(** A computation that leaves the attribute [a] of the object as it was,
    however it ends. *)
Definition frames {A : Type} (a : string) (m : M A) : Prop :=
  forall w, self (snd (m w)) !! a = self w !! a.




Section Derivation.
Context `{Client : AWSClient} `{Hst : Host}.

(** What comes after the handler and the log group are derived. *)
Definition after_derivation (args : list (string * pyval)) : M unit :=
  scar_call <~ getattr "scar_call" ;;
  if py_eq_str scar_call "init" then
    set_tags ;;
    set_code
  else if py_eq_str scar_call "run" then
    update_function_attributes args ;;
    (if py_truthy (get_argument_value args "script") then
       script <~ get_escaped_script ;;
       set_payload (create_payload "script" script)
     else ret tt) ;;
    (if py_truthy (get_argument_value args "cont_args") then
       cont_args <~ get_parsed_cont_args ;;
       set_payload (create_payload "cmd_args" cont_args)
     else ret tt)
  else ret tt.

End Derivation.







(** The config file of a first run: the built-in defaults, the role empty. *)
Definition default_config : list (string * list (string * string)) :=
  [("scar", [("lambda_description", "Automatically generated lambda function");
             ("lambda_memory", "512");
             ("lambda_time", "300");
             ("lambda_region", "us-east-1");
             ("lambda_role", "");
             ("lambda_timeout_threshold", "10")])].

(** A client whose checks pass, and a host, to run the code on. *)
Definition example_client : AWSClient := {|
  create_function_name := fun _ => Ok (VStr "scar-function");
  check_memory := fun v => Ok v;
  check_time := fun v => Ok v;
  get_user_name_or_id := Ok (VStr "user");
  check_function_name_exists := fun _ => Ok tt;
  check_function_name_not_exists := fun _ => Ok tt;
  update_function_memory := fun _ _ => Ok tt;
  update_function_timeout := fun _ _ => Ok tt;
  update_function_env_variables := fun _ _ => Ok tt |}.

Definition example_host : Host := {|
  home := "/home/user";
  tmpdir := "/tmp";
  scar_abs_path := "/opt/scar";
  json_dumps := fun _ => Ok "{}";
  escape_string := fun v => Ok v;
  escape_list := fun v => Ok v;
  repr_object := fun _ => "<object>" |}.

(** A fresh descriptor on a machine where SCAR is installed and nothing
    else is there yet. *)
Definition installed_files : gmap string content :=
  <["/opt/scar/lambda/scarsupervisor.py":=Text "supervisor"]>
    (<["/opt/scar/lambda/udocker":=Text "udocker"]>
       (<["/opt/scar/lambda/udocker-1.1.0-RC2.tar.gz":=Text "tarball"]> ∅)).

Definition fresh_world : world :=
  World (@init_self example_host) (FS installed_files ∅) [] [].

(** Binding the name [myfunc] on a fresh descriptor. *)
Definition myfunc_args : list (string * pyval) := [("name", VStr "myfunc")].
Definition myfunc_world : world :=
  snd (@set_attributes example_client example_host myfunc_args fresh_world).

(** Three arguments on a fresh descriptor: one without a setter, one whose
    setter raises, and an invalid name. *)
Definition lenient_args : list (string * pyval) :=
  [("foo", VStr "x"); ("func", VStr "init"); ("name", VStr "my func")].


(** A directory [payload] with a file [a.txt] and a sub-directory [sub]
    holding [b.txt]; and a descriptor named [myfunc] whose extra payload is
    that directory, under the path [dir]. *)
Definition payload_tree : dirtree := Dir ["a.txt"] [("sub", Dir ["b.txt"] [])].

Definition payload_world (dir : string) : world :=
  World (<["extra_payload":=VStr dir]> (<["name":=VStr "myfunc"]> (@init_self example_host)))
        (FS installed_files (<["payload":=payload_tree]> ∅)) [] [].

(** ** Further observations *)



(** One variable of [self.environment['Variables']]. *)
Definition env_get (k : string) (w : world) : option pyval :=
  match env_variables w with
  | Some vars => dict_get k vars
  | None => None
  end.

(** A computation that leaves an observation of the world as it was,
    however it ends. *)
Definition keeps {A B : Type} (obs : world -> B) (m : M A) : Prop :=
  forall w, obs (snd (m w)) = obs w.

(** The variables [set_required_environment_variables] registers. *)
Definition required_variables : list string :=
  ["UDOCKER_DIR"; "UDOCKER_TARBALL"; "TIMEOUT_THRESHOLD"; "RECURSIVE"; "IMAGE_ID"].

(** The S3 event of the descriptor, with its bucket name and object key. *)
Definition event_template (bucket key : pyval) : pyval :=
  VDict [("Records",
    VList [VDict [("eventSource", VStr "aws:s3");
                  ("s3", VDict [("bucket", VDict [("name", bucket)]);
                                ("object", VDict [("key", key)])])]])].

(** A client that turns down every memory size and every timeout outside
    its limits, to run the code on. *)
Definition strict_client : AWSClient := {|
  create_function_name := fun _ => Ok (VStr "scar-function");
  check_memory := fun v =>
    match v with
    | VInt z => if ((128 <=? z) && (z <=? 1536))%Z then Ok v
                else Raise (Exn "Exception" "Incorrect memory size specified")
    | _ => Raise (type_error "'<' not supported between instances")
    end;
  check_time := fun v =>
    match v with
    | VInt z => if ((1 <=? z) && (z <=? 300))%Z then Ok v
                else Raise (Exn "Exception" "Incorrect time specified")
    | _ => Raise (type_error "'<=' not supported between instances")
    end;
  get_user_name_or_id := Ok (VStr "user");
  check_function_name_exists := fun _ => Ok tt;
  check_function_name_not_exists := fun _ => Ok tt;
  update_function_memory := fun _ _ => Ok tt;
  update_function_timeout := fun _ _ => Ok tt;
  update_function_env_variables := fun _ _ => Ok tt |}.

(** A fresh descriptor on a machine whose config file names a role and a
    memory size. *)
Definition configured_section : list (string * string) :=
  [("lambda_role", "arn:aws:iam::123456789012:role/lambda"); ("lambda_memory", "1024")].

Definition configured_world : world :=
  World (@init_self example_host)
        (FS (<[@config_file_path example_host:=Ini [("scar", configured_section)]]>
               installed_files) ∅) [] [].

(** The attributes [derive_attributes] may assign. *)
Definition derived_attributes : list string :=
  ["environment"; "handler"; "log_group_name"; "tags"; "code"; "payload"].

(** The attributes each method the binder can reach may assign. The
    methods of [setters] that take no argument raise before they assign
    anything and are left out. *)
Definition setter_footprints : list (string * list string) :=
  [ ("set_log_stream_name", ["log_stream_name"]);
    ("set_request_id", ["request_id"]);
    ("set_payload", ["payload"]);
    ("set_cont_args", ["container_arguments"]);
    ("set_async", ["asynchronous_call"; "invocation_type"; "log_type"]);
    ("set_func", ["scar_call"]);
    ("set_name", ["name"]);
    ("set_image_id", ["image_id"; "name"]);
    ("set_memory", ["memory"]);
    ("set_time", ["time"]);
    ("set_timeout_threshold", ["timeout_threshold"]);
    ("set_json", ["output"]);
    ("set_verbose", ["output"]);
    ("set_script", ["script"]);
    ("set_event_source", ["event_source"; "event"]);
    ("set_event_source_file_name", ["event"]);
    ("set_lambda_role", ["lambda_role"]);
    ("set_recursive", ["recursive"]);
    ("set_preheat", ["preheat"]);
    ("set_extra_payload", ["extra_payload"]);
    ("set_environment_variables", ["environment"]);
    ("set_all", ["delete_all"]);
    ("set_attributes", derived_attributes) ].

Definition method_footprint (method_name : string) : list string :=
  match dict_get method_name setter_footprints with
  | Some attributes => attributes
  | None => []
  end.

(** The attributes binding the argument [attr] may assign. *)
Definition footprint (attr : string) : list string := method_footprint ("set_" ++ attr).

(** Every attribute a binding pass may assign. *)
Definition bound_attributes : list string :=
  [ "log_stream_name"; "request_id"; "payload"; "container_arguments";
    "asynchronous_call"; "invocation_type"; "log_type"; "scar_call"; "name";
    "image_id"; "memory"; "time"; "timeout_threshold"; "output"; "script";
    "event_source"; "event"; "lambda_role"; "recursive"; "preheat";
    "extra_payload"; "environment"; "delete_all"; "handler"; "log_group_name";
    "tags"; "code" ].

(** A property of the world that a computation keeps, however it ends. *)
Definition stable {A : Type} (I : world -> Prop) (m : M A) : Prop :=
  forall w, I w -> I (snd (m w)).

(** The three attributes of the invocation mode agree with each other. *)
Definition mode_attributes : list string :=
  ["asynchronous_call"; "invocation_type"; "log_type"].

Definition mode_of (asynchronous : bool) (w : world) : Prop :=
  self w !! "asynchronous_call" = Some (VBool asynchronous) /\
  self w !! "invocation_type"
  = Some (VStr (if asynchronous then "Event" else "RequestResponse")) /\
  self w !! "log_type" = Some (VStr (if asynchronous then "None" else "Tail")).

Definition mode_consistent (w : world) : Prop := exists b, mode_of b w.





Local Open Scope list_scope.

(** * Properties *)

(** ** The matcher against the denotation *)










(** ** The pattern denotes the naming grammar *)










(** ** The first match is the whole string whenever some match is *)

Ltac ascii_cases c := destruct c as [[] [] [] [] [] [] [] []]; vm_compute; try congruence.

Lemma name_char_not_colon (c : ascii) : name_char c = true -> c <> ":"%char.
Proof. intros Hc ->. discriminate Hc. Qed.

Lemma name_char_not_dollar (c : ascii) : name_char c = true -> c <> "$"%char.
Proof. intros Hc ->. discriminate Hc. Qed.









































(** ** The name validator *)

Example is_valid_name_ex1 :
  is_valid_name (VStr "arn:aws:lambda:us-east-1:123456789012:function:my_f-1:$LATEST") = Ok (VBool true).
Proof. vm_compute. reflexivity. Qed.
Example is_valid_name_ex2 : is_valid_name (VStr "us-gov-1:$LATEST") = Ok (VBool true).
Proof. vm_compute. reflexivity. Qed.
Example is_valid_name_ex3 : is_valid_name (VStr "my func") = Ok (VBool false).
Proof. vm_compute. reflexivity. Qed.
Example is_valid_name_ex4 : is_valid_name (VStr "$LATEST") = Ok VNone.
Proof. vm_compute. reflexivity. Qed.






(** ** Reasoning about computations *)

Local Open Scope string_scope.

Lemma bind_ok {A B : Type} (m : M A) (k : A -> M B) (w w' : world) (b : B) :
  bind m k w = (Ok b, w') ->
  exists a w1, m w = (Ok a, w1) /\ k a w1 = (Ok b, w').
Proof.
  unfold bind. destruct (m w) as [[a|e|c] w1]; [|discriminate..].
  intros Hk. now exists a, w1.
Qed.

Lemma run_ok {A : Type} (m : M A) (w : world) (x : A) :
  fst (m w) = Ok x -> m w = (Ok x, snd (m w)).
Proof. destruct (m w) as [r w']. simpl. now intros ->. Qed.

Lemma run_with {A : Type} (m : M A) (w : world) (r : result A) :
  fst (m w) = r -> m w = (r, snd (m w)).
Proof. destruct (m w) as [r' w']. simpl. now intros ->. Qed.

Lemma bind_exit {A B : Type} (m : M A) (k : A -> M B) (w w' : world) (c : Z) :
  m w = (Exit c, w') -> bind m k w = (Exit c, w').
Proof. unfold bind. now intros ->. Qed.

Lemma bind_step {A B : Type} (m : M A) (k : A -> M B) (w w1 : world) (a : A) :
  m w = (Ok a, w1) -> bind m k w = k a w1.
Proof. unfold bind. now intros ->. Qed.

Lemma frames_ret {A : Type} (a : string) (x : A) : frames a (ret x).
Proof. now intros w. Qed.

Lemma frames_raise {A : Type} (a : string) (e : exn) : frames a (@raise A e).
Proof. now intros w. Qed.

Lemma frames_sys_exit {A : Type} (a : string) (c : Z) : frames a (@sys_exit A c).
Proof. now intros w. Qed.

Lemma frames_lift {A : Type} (a : string) (r : result A) : frames a (lift r).
Proof. now intros w. Qed.

Lemma frames_getattr (a b : string) : frames a (getattr b).
Proof. intros w. unfold getattr. now destruct (self w !! b). Qed.

Lemma frames_hasattr (a b : string) : frames a (hasattr b).
Proof. now intros w. Qed.

Lemma frames_setattr (a b : string) (v : pyval) : b <> a -> frames a (setattr b v).
Proof. intros Hne w. simpl. now apply lookup_insert_ne. Qed.

Lemma frames_logging (a level msg : string) : frames a (logging level msg).
Proof. now intros w. Qed.

Lemma frames_print (a msg : string) : frames a (print msg).
Proof. now intros w. Qed.

Lemma frames_get_fs (a : string) : frames a get_fs.
Proof. now intros w. Qed.

Lemma frames_put_fs (a : string) (f : filesystem) : frames a (put_fs f).
Proof. now intros w. Qed.

Lemma frames_bind_ok {A B : Type} (a : string) (m : M A) (k : A -> M B) :
  frames a m -> (forall x w w', m w = (Ok x, w') -> frames a (k x)) ->
  frames a (bind m k).
Proof.
  intros Hm Hk w. unfold bind. specialize (Hm w).
  destruct (m w) as [[x|e|c] w1] eqn:Hmw; simpl in *; [|exact Hm..].
  rewrite <- Hm. now apply (Hk x w w1).
Qed.

Lemma frames_bind {A B : Type} (a : string) (m : M A) (k : A -> M B) :
  frames a m -> (forall x, frames a (k x)) -> frames a (bind m k).
Proof. intros Hm Hk. apply frames_bind_ok; auto. Qed.

Lemma frames_try_except {A : Type} (a : string) (body : M A) (handler : exn -> M A) :
  frames a body -> (forall e, frames a (handler e)) -> frames a (try_except body handler).
Proof.
  intros Hb Hh w. unfold try_except. specialize (Hb w).
  destruct (body w) as [[x|e|c] w1]; simpl in *; [exact Hb| |exact Hb].
  rewrite <- Hb. apply Hh.
Qed.

Lemma frames_for_each {A : Type} (a : string) (body : A -> M unit) (l : list A) :
  (forall x, frames a (body x)) -> frames a (for_each body l).
Proof.
  intros Hb. induction l as [|x l IH]; simpl; [apply frames_ret|].
  apply frames_bind; auto.
Qed.

(** Breaks a computation down to its primitive steps; what is left are the
    side conditions on attribute names. *)
Ltac frames_step :=
  lazymatch goal with
  | |- frames _ (bind _ _) => apply frames_bind; [|intros]
  | |- frames _ (ret _) => apply frames_ret
  | |- frames _ (raise _) => apply frames_raise
  | |- frames _ (sys_exit _) => apply frames_sys_exit
  | |- frames _ (lift _) => apply frames_lift
  | |- frames _ (getattr _) => apply frames_getattr
  | |- frames _ (hasattr _) => apply frames_hasattr
  | |- frames _ (setattr _ _) => apply frames_setattr; discriminate
  | |- frames _ (logging _ _) => apply frames_logging
  | |- frames _ (logging_error _) => apply frames_logging
  | |- frames _ (logging_warning _) => apply frames_logging
  | |- frames _ (print _) => apply frames_print
  | |- frames _ get_fs => apply frames_get_fs
  | |- frames _ (put_fs _) => apply frames_put_fs
  | |- frames _ (try_except _ _) => apply frames_try_except; [|intros]
  | |- frames _ (for_each _ _) => apply frames_for_each; intros
  | |- frames _ (if ?b then _ else _) => destruct b
  | |- frames _ (match ?x with _ => _ end) => destruct x
  end.

Ltac frames_auto := repeat frames_step.

Create HintDb frames discriminated.
#[local] Hint Extern 1 (_ <> _) => solve [discriminate | congruence] : frames.

Ltac frames_side := solve [discriminate | congruence | eauto with frames].

Ltac frames_go :=
  repeat first
    [ frames_step
    | lazymatch goal with
      | |- frames _ _ => solve [eauto with frames]
      | |- _ <> _ => frames_side
      end ].

Section Frames.
Context `{Client : AWSClient} `{Hst : Host}.
Variable a : string.

Lemma frames_set_evironment_variable (key : string) (value : pyval) :
  a <> "environment" -> frames a (set_evironment_variable key value).
Proof.
  intros Ha. unfold set_evironment_variable.
  do 2 (apply frames_bind; [frames_go | intros]). apply frames_setattr. congruence.
Qed.

Lemma frames_write_file (path : string) (c : content) : frames a (write_file path c).
Proof. unfold write_file. frames_go. Qed.

Lemma frames_zip_append (zip_path arcname source : string) :
  frames a (zip_append zip_path arcname source).
Proof. unfold zip_append. frames_go; apply frames_write_file. Qed.

Lemma frames_zip_write (zip_path : string) (filename : pyval) (arcname : string) :
  frames a (zip_write zip_path filename arcname).
Proof. unfold zip_write. frames_go; apply frames_zip_append. Qed.

Lemma frames_zip_folder (zipPath : string) (target_dir : pyval) :
  frames a (zip_folder zipPath target_dir).
Proof. unfold zip_folder, walk. frames_go; apply frames_zip_append. Qed.

Lemma frames_shutil_copy (src dst : string) : frames a (shutil_copy src dst).
Proof. unfold shutil_copy. frames_go; apply frames_write_file. Qed.

Lemma frames_os_remove (path : string) : frames a (os_remove path).
Proof. unfold os_remove. frames_go. Qed.

Lemma frames_create_zip_file : a <> "environment" -> frames a create_zip_file.
Proof.
  intros Ha. unfold create_zip_file.
  pose proof frames_set_evironment_variable. pose proof frames_write_file.
  pose proof frames_zip_write. pose proof frames_zip_folder.
  pose proof frames_shutil_copy. pose proof frames_os_remove.
  frames_go; auto.
Qed.

Lemma frames_set_code : a <> "environment" -> a <> "code" -> frames a set_code.
Proof.
  intros Henv Hcode. unfold set_code.
  apply frames_bind; [now apply frames_create_zip_file | intros].
  apply frames_setattr. congruence.
Qed.

Lemma frames_set_tags : a <> "tags" -> frames a set_tags.
Proof.
  intros Ha. unfold set_tags.
  repeat (apply frames_bind; [first [apply frames_setattr; congruence | frames_go] | intros]).
  apply frames_setattr. congruence.
Qed.

Lemma frames_set_payload (payload : pyval) : a <> "payload" -> frames a (set_payload payload).
Proof.
  intros Ha. unfold set_payload. apply frames_bind; [frames_go | intros].
  apply frames_setattr. congruence.
Qed.

Lemma frames_update_function_attributes (args : list (string * pyval)) :
  frames a (update_function_attributes args).
Proof. unfold update_function_attributes. frames_go. Qed.

Lemma frames_get_escaped_script : frames a get_escaped_script.
Proof. unfold get_escaped_script, file_read. frames_go. Qed.

Lemma frames_get_parsed_cont_args : frames a get_parsed_cont_args.
Proof. unfold get_parsed_cont_args. frames_go. Qed.

Lemma frames_check_function_name : frames a check_function_name.
Proof. unfold check_function_name. frames_go. Qed.

Lemma frames_set_required_environment_variables :
  a <> "environment" -> frames a set_required_environment_variables.
Proof.
  intros Ha. unfold set_required_environment_variables.
  pose proof frames_set_evironment_variable. frames_go; auto.
Qed.

End Frames.

Section Binder.
Context `{Client : AWSClient} `{Hst : Host}.

Lemma dict_get_In {V : Type} (k : string) (d : list (string * V)) (v : V) :
  dict_get k d = Some v -> In (k, v) d.
Proof.
  induction d as [|[k' v'] d IH]; simpl; [discriminate|].
  destruct (String.eqb_spec k' k) as [->|_]; [intros [= ->]; now left | right; auto].
Qed.

Lemma frames_after_derivation (a : string) (args : list (string * pyval)) :
  a <> "tags" -> a <> "code" -> a <> "environment" -> a <> "payload" ->
  frames a (after_derivation args).
Proof.
  intros Htags Hcode Henv Hpayload. unfold after_derivation.
  pose proof (frames_set_tags a Htags). pose proof (frames_set_code a Henv Hcode).
  pose proof (frames_update_function_attributes a).
  pose proof (frames_get_escaped_script a). pose proof (frames_get_parsed_cont_args a).
  pose proof (fun p => frames_set_payload a p Hpayload).
  frames_go; auto.
Qed.

Lemma frames_derive_attributes (a : string) (args : list (string * pyval)) :
  a <> "tags" -> a <> "code" -> a <> "environment" -> a <> "payload" ->
  a <> "handler" -> a <> "log_group_name" ->
  frames a (derive_attributes args).
Proof.
  intros Htags Hcode Henv Hpayload Hhandler Hlog.
  unfold derive_attributes. fold (after_derivation args).
  apply frames_bind; [apply frames_check_function_name | intros _].
  apply frames_bind; [now apply frames_set_required_environment_variables | intros _].
  apply frames_bind; [apply frames_getattr | intros name].
  apply frames_bind; [|intros _; now apply frames_after_derivation].
  destruct (py_truthy name); [|apply frames_ret].
  repeat (apply frames_bind;
          [first [apply frames_setattr; congruence | frames_go] | intros]).
  apply frames_setattr. congruence.
Qed.

Lemma frames_role_setters (method_name : string) (method : pyval -> M unit) :
  In (method_name, method) setters -> forall value, frames "role" (method value).
Proof.
  assert (Henv := frames_set_evironment_variable "role").
  unfold setters. intros Hin value. simpl in Hin.
  repeat (destruct Hin as [[= <- <-]|Hin];
          [try (apply frames_raise); try (apply frames_setattr; discriminate)|]);
    try contradiction.
  - unfold set_payload. frames_go.
  - unfold set_async, set_asynchronous_call_parameters,
      set_request_response_call_parameters. frames_go.
  - unfold set_func. frames_go.
  - unfold set_name, finish_failed_execution. frames_go.
  - unfold set_image_id, set_name, finish_failed_execution. frames_go.
  - unfold set_memory. frames_go.
  - unfold set_time. frames_go.
  - unfold set_json. frames_go.
  - unfold set_verbose. frames_go.
  - unfold set_event_source. frames_go.
  - unfold set_event_source_file_name. frames_go.
  - unfold set_environment_variables, set_environment_variable_from.
    frames_go; apply Henv; discriminate.
Qed.

Lemma frames_role_bind_attribute (args : list (string * pyval)) (attr : string) :
  frames "role" (bind_attribute args attr).
Proof.
  unfold bind_attribute. apply frames_try_except; [|intros; apply frames_logging].
  assert (Hcall : frames "role"
            (method <~ get_method ("set_" ++ attr) ;; method (get_argument_value args attr))).
  { apply frames_bind_ok.
    - unfold get_method. frames_go.
    - intros method w w' Hget. unfold get_method in Hget.
      destruct (String.eqb ("set_" ++ attr) "set_attributes").
      + injection Hget as <- _. apply frames_bind; [apply frames_lift | intros].
        apply frames_derive_attributes; discriminate.
      + destruct (dict_get ("set_" ++ attr) setters) as [m|] eqn:Hm; [|discriminate Hget].
        injection Hget as <- _. eapply frames_role_setters, dict_get_In, Hm. }
  destruct (get_argument_value args attr); first [apply frames_ret | exact Hcall].
Qed.

Lemma frames_role_set_attributes (args : list (string * pyval)) :
  frames "role" (set_attributes args).
Proof.
  unfold set_attributes. apply frames_bind.
  - apply frames_for_each. intros attr. apply frames_role_bind_attribute.
  - intros _. apply frames_derive_attributes; discriminate.
Qed.

End Binder.

(** ** Asynchronous mode *)

(** C3. Setting asynchronous mode to a true value sets the flag, the
    invocation type ['Event'] and the log type ['None'] together; a false
    value sets the flag off, ['RequestResponse'] and ['Tail']; and on a
    descriptor in the synchronous state, setting the mode to true and then
    to false gives back the invocation type and the log type it had. *)
Theorem set_async_spec (w : world) (v : pyval) :
  (py_truthy v = true ->
   set_async v w =
     (Ok tt, assigned "log_type" (VStr "None")
               (assigned "invocation_type" (VStr "Event")
                  (assigned "asynchronous_call" (VBool true) w)))) /\
  (py_truthy v = false ->
   set_async v w =
     (Ok tt, assigned "log_type" (VStr "Tail")
               (assigned "invocation_type" (VStr "RequestResponse")
                  (assigned "asynchronous_call" (VBool false) w)))) /\
  (self w !! "asynchronous_call" = Some (VBool false) ->
   self w !! "invocation_type" = Some (VStr "RequestResponse") ->
   self w !! "log_type" = Some (VStr "Tail") ->
   exists w1 w2,
     set_async (VBool true) w = (Ok tt, w1) /\
     set_async (VBool false) w1 = (Ok tt, w2) /\
     self w2 !! "invocation_type" = self w !! "invocation_type" /\
     self w2 !! "log_type" = self w !! "log_type" /\
     self w2 = self w).
Proof.
  split; [|split].
  - intros Hv. unfold set_async. now rewrite Hv.
  - intros Hv. unfold set_async. now rewrite Hv.
  - intros Hflag Hinv Hlog. eexists _, _.
    split; [reflexivity|]. split; [reflexivity|].
    assert (Heq : forall k,
      self (assigned "log_type" (VStr "Tail")
              (assigned "invocation_type" (VStr "RequestResponse")
                 (assigned "asynchronous_call" (VBool false)
                    (assigned "log_type" (VStr "None")
                       (assigned "invocation_type" (VStr "Event")
                          (assigned "asynchronous_call" (VBool true) w)))))) !! k
      = self w !! k).
    { intros k. simpl.
      destruct (decide (k = "log_type")) as [->|?]; [now rewrite lookup_insert_eq|].
      rewrite lookup_insert_ne by congruence.
      destruct (decide (k = "invocation_type")) as [->|?]; [now rewrite lookup_insert_eq|].
      rewrite lookup_insert_ne by congruence.
      destruct (decide (k = "asynchronous_call")) as [->|?]; [now rewrite lookup_insert_eq|].
      now rewrite !lookup_insert_ne by congruence. }
    split; [apply Heq|]. split; [apply Heq|]. apply map_eq, Heq.
Qed.

Lemma set_async_spec_witness :
  set_async (VBool true) fresh_world =
    (Ok tt, assigned "log_type" (VStr "None")
              (assigned "invocation_type" (VStr "Event")
                 (assigned "asynchronous_call" (VBool true) fresh_world))) /\
  set_async VNone fresh_world =
    (Ok tt, assigned "log_type" (VStr "Tail")
              (assigned "invocation_type" (VStr "RequestResponse")
                 (assigned "asynchronous_call" (VBool false) fresh_world))) /\
  exists w1 w2,
    set_async (VBool true) fresh_world = (Ok tt, w1) /\
    set_async (VBool false) w1 = (Ok tt, w2) /\
    self w2 !! "invocation_type" = self fresh_world !! "invocation_type" /\
    self w2 !! "log_type" = self fresh_world !! "log_type" /\
    self w2 = self fresh_world.
Proof.
  split; [|split].
  - apply (proj1 (set_async_spec fresh_world (VBool true))). reflexivity.
  - apply (proj1 (proj2 (set_async_spec fresh_world VNone))). reflexivity.
  - apply (proj2 (proj2 (set_async_spec fresh_world VNone))); vm_compute; reflexivity.
Defined.

(** ** The role *)

Lemma validate_reads_role `{Hst : Host} (w1 w2 : world) :
  self w1 !! "role" = self w2 !! "role" ->
  fst (validate_lambda_configuration w1) = fst (validate_lambda_configuration w2).
Proof.
  intros Hrole. unfold validate_lambda_configuration, bind, getattr. rewrite Hrole.
  destruct (self w2 !! "role") as [role|]; [|reflexivity].
  now destruct (negb (py_truthy role) || py_eq_str role "").
Qed.

(** C10. [set_lambda_role] stores its value in an attribute of its own,
    [lambda_role], and leaves [role] as it was; so does the whole binding
    pass, whatever the arguments: the role that
    [validate_lambda_configuration] consults is not altered by it, and the
    validation ends after the pass as it would have before. *)
Theorem set_lambda_role_leaves_role `{Client : AWSClient} `{Hst : Host}
    (args : list (string * pyval)) (w : world) (v : pyval) :
  set_lambda_role v w = (Ok tt, assigned "lambda_role" v w) /\
  self (assigned "lambda_role" v w) !! "role" = self w !! "role" /\
  self (snd (set_attributes args w)) !! "role" = self w !! "role" /\
  fst (validate_lambda_configuration (snd (set_attributes args w)))
  = fst (validate_lambda_configuration w).
Proof.
  split; [reflexivity|]. split; [now apply lookup_insert_ne|].
  pose proof (frames_role_set_attributes args w) as Hrole.
  split; [exact Hrole | now apply validate_reads_role].
Qed.

(** ** Derived attributes *)

Lemma getattr_ok (a : string) (w w' : world) (v : pyval) :
  getattr a w = (Ok v, w') -> w' = w /\ self w !! a = Some v.
Proof.
  unfold getattr. destruct (self w !! a); [|discriminate]. now intros [= -> ->].
Qed.

Lemma getattr_some (a : string) (w : world) (v : pyval) :
  self w !! a = Some v -> getattr a w = (Ok v, w).
Proof. unfold getattr. now intros ->. Qed.

Lemma hasattr_some (a : string) (w : world) (v : pyval) :
  self w !! a = Some v -> hasattr a w = (Ok true, w).
Proof. unfold hasattr. intros Hv. now rewrite bool_decide_eq_true_2 by eauto. Qed.

Lemma derive_attributes_handler `{Client : AWSClient} `{Hst : Host}
    (args : list (string * pyval)) (w w' : world) (name : pyval) :
  derive_attributes args w = (Ok tt, w') ->
  self w' !! "name" = Some name -> py_truthy name = true ->
  exists s, name = VStr s /\
            self w' !! "handler" = Some (VStr (s ++ ".lambda_handler")) /\
            self w' !! "log_group_name" = Some (VStr ("/aws/lambda/" ++ s)).
Proof.
  unfold derive_attributes. fold (after_derivation args). intros Hrun Hname Htruthy.
  apply bind_ok in Hrun as (_ & w1 & _ & Hrun).
  apply bind_ok in Hrun as (_ & w2 & _ & Hrun).
  apply bind_ok in Hrun as (name0 & w3 & Hget & Hrun).
  apply getattr_ok in Hget as [-> Hname0].
  apply bind_ok in Hrun as ([] & w4 & Hderive & Hrun).
  assert (Hframe : forall x, x <> "tags" -> x <> "code" -> x <> "environment" ->
                             x <> "payload" -> self w' !! x = self w4 !! x).
  { intros x ? ? ? ?.
    pose proof (frames_after_derivation x args ltac:(assumption) ltac:(assumption)
                  ltac:(assumption) ltac:(assumption) w4) as Hx.
    now rewrite Hrun in Hx. }
  rewrite !Hframe by discriminate. rewrite Hframe in Hname by discriminate.
  destruct (py_truthy name0) eqn:Htruthy0.
  - apply bind_ok in Hderive as (handler & w5 & Hhandler & Hderive).
    destruct name0 as [| | |s| | | | | | |]; try discriminate Hhandler.
    injection Hhandler as Hh Hw. subst handler w5.
    apply bind_ok in Hderive as ([] & w6 & Hset & Hderive).
    injection Hset as Hw. subst w6.
    apply bind_ok in Hderive as (name1 & w7 & Hget & Hderive).
    apply getattr_ok in Hget as [-> Hname1].
    simpl in Hname1. rewrite lookup_insert_ne in Hname1 by discriminate.
    rewrite Hname0 in Hname1. injection Hname1 as <-.
    apply bind_ok in Hderive as (lg & w8 & Hlg & Hderive).
    injection Hlg as Hl Hw. subst lg w8.
    injection Hderive as Hw. subst w4. simpl in *.
    rewrite lookup_insert_ne, lookup_insert_ne, Hname0 in Hname by discriminate.
    injection Hname as <-. exists s. split; [reflexivity|].
    rewrite lookup_insert_ne, lookup_insert_eq, lookup_insert_eq by discriminate.
    now split.
  - injection Hderive as Hw. subst w4. rewrite Hname0 in Hname.
    injection Hname as Hn. subst name0. congruence.
Qed.

(** C6, as the code has it. After attribute binding, whenever a function
    name is set, the handler is ['<name>.lambda_handler'] and the log group
    name is ['/aws/lambda/<name>']; the class has no setter for either
    field, so an argument named after one of them is logged and skipped. *)
Theorem handler_derived_from_name `{Client : AWSClient} `{Hst : Host}
    (args : list (string * pyval)) (w w' : world) (name : pyval) :
  (set_attributes args w = (Ok tt, w') ->
   self w' !! "name" = Some name -> py_truthy name = true ->
   exists s, name = VStr s /\
             self w' !! "handler" = Some (VStr (s ++ ".lambda_handler")) /\
             self w' !! "log_group_name" = Some (VStr ("/aws/lambda/" ++ s))) /\
  get_method "set_handler"
  = raise (attribute_error "'AWSLambda' object has no attribute 'set_handler'") /\
  get_method "set_log_group_name"
  = raise (attribute_error "'AWSLambda' object has no attribute 'set_log_group_name'").
Proof.
  split; [|split; reflexivity].
  unfold set_attributes. intros Hrun Hname Htruthy.
  apply bind_ok in Hrun as (u & w1 & _ & Hrun).
  exact (derive_attributes_handler args w1 w' name Hrun Hname Htruthy).
Qed.

Lemma handler_derived_from_name_witness :
  exists s, VStr "myfunc" = VStr s /\
            self myfunc_world !! "handler" = Some (VStr (s ++ ".lambda_handler")) /\
            self myfunc_world !! "log_group_name" = Some (VStr ("/aws/lambda/" ++ s)).
Proof.
  apply (proj1 (@handler_derived_from_name example_client example_host
                  myfunc_args fresh_world myfunc_world (VStr "myfunc"))).
  - unfold myfunc_world.
    apply (run_ok (@set_attributes example_client example_host myfunc_args)).
    vm_compute. reflexivity.
  - vm_compute. reflexivity.
  - reflexivity.
Defined.

(** C6 as stated does not hold: for the name [myfunc] the handler is
    [myfunc.lambda_handler], not [myfunc.entrypoint]. *)
Lemma handler_is_not_entrypoint :
  @set_attributes example_client example_host myfunc_args fresh_world
  = (Ok tt, myfunc_world) /\
  self myfunc_world !! "name" = Some (VStr "myfunc") /\
  self myfunc_world !! "handler" = Some (VStr "myfunc.lambda_handler") /\
  self myfunc_world !! "handler" <> Some (VStr "myfunc.entrypoint").
Proof.
  split.
  { unfold myfunc_world.
    apply (run_ok (@set_attributes example_client example_host myfunc_args)).
    vm_compute. reflexivity. }
  split; [vm_compute; reflexivity|].
  assert (Hh : self myfunc_world !! "handler" = Some (VStr "myfunc.lambda_handler"))
    by (vm_compute; reflexivity).
  split; [exact Hh|]. rewrite Hh. discriminate.
Qed.

(** ** The binding pass *)

Lemma bind_attribute_no_raise `{Client : AWSClient} `{Hst : Host}
    (args : list (string * pyval)) (attr : string) (w : world) (e : exn) :
  fst (bind_attribute args attr w) <> Raise e.
Proof.
  unfold bind_attribute, try_except.
  match goal with |- context [match ?b w with _ => _ end] => destruct (b w) as [[[]|e'|c] w1] end;
    discriminate.
Qed.

Lemma binding_no_raise `{Client : AWSClient} `{Hst : Host}
    (args : list (string * pyval)) (attrs : list string) (w : world) (e : exn) :
  fst (for_each (bind_attribute args) attrs w) <> Raise e.
Proof.
  revert w. induction attrs as [|attr attrs IH]; intros w; simpl; [discriminate|].
  unfold bind. pose proof (bind_attribute_no_raise args attr w) as Hstep.
  destruct (bind_attribute args attr w) as [[[]|e'|c] w1]; simpl in *.
  - apply IH.
  - now destruct (Hstep e').
  - discriminate.
Qed.

Lemma get_method_pure `{Client : AWSClient} `{Hst : Host}
    (method_name : string) (w w' : world) (r : result (pyval -> M unit)) :
  get_method method_name w = (r, w') -> w' = w /\ forall c, r <> Exit c.
Proof.
  unfold get_method. destruct (String.eqb method_name "set_attributes");
    [|destruct (dict_get method_name setters)]; intros [= <- <-]; now split.
Qed.

(** C9, as the code has it. In the binding pass, for an argument whose
    value is not [None]: when the class has no method [set_<attribute>],
    or when the setter raises an exception, the error is logged and the
    pass goes on with the next attribute; the pass never raises. It stops
    early only when a setter terminates the process, as [set_name] does
    for an invalid name. *)
Theorem binding_is_lenient `{Client : AWSClient} `{Hst : Host}
    (args : list (string * pyval)) (attr : string) (w : world) :
  (get_argument_value args attr <> VNone ->
   "set_" ++ attr <> "set_attributes" -> dict_get ("set_" ++ attr) setters = None ->
   bind_attribute args attr w
   = (Ok tt, logged "ERROR" ("'AWSLambda' object has no attribute 'set_" ++ attr ++ "'") w)) /\
  (forall method e w1,
     get_argument_value args attr <> VNone ->
     get_method ("set_" ++ attr) w = (Ok method, w) ->
     method (get_argument_value args attr) w = (Raise e, w1) ->
     bind_attribute args attr w = (Ok tt, logged "ERROR" (exn_msg e) w1)) /\
  (forall rest w1,
     bind_attribute args attr w = (Ok tt, w1) ->
     for_each (bind_attribute args) (attr :: rest) w
     = for_each (bind_attribute args) rest w1) /\
  (forall attrs e, fst (for_each (bind_attribute args) attrs w) <> Raise e) /\
  (forall c w1,
     bind_attribute args attr w = (Exit c, w1) ->
     exists method,
       get_method ("set_" ++ attr) w = (Ok method, w) /\
       method (get_argument_value args attr) w = (Exit c, w1)).
Proof.
  repeat split.
  - intros Hvalue Hname Hnone. unfold bind_attribute, try_except, bind, get_method.
    apply String.eqb_neq in Hname. rewrite Hname, Hnone.
    unfold raise, logging_error, logging, logged.
    now destruct (get_argument_value args attr).
  - intros method e w1 Hvalue Hget Hcall. unfold bind_attribute. cbv zeta.
    destruct (get_argument_value args attr) eqn:Hv; [now destruct Hvalue|..];
      unfold try_except, bind; now rewrite Hget, Hcall.
  - intros rest w1 Hstep. simpl. unfold bind. now rewrite Hstep.
  - intros attrs e. apply binding_no_raise.
  - intros c w1. unfold bind_attribute. cbv zeta.
    destruct (get_argument_value args attr) eqn:Hv; [discriminate|..];
      unfold try_except, bind;
      destruct (get_method ("set_" ++ attr) w) as [[method|e|c'] w2] eqn:Hget;
      destruct (get_method_pure _ _ _ _ Hget) as [-> Hexit];
      try discriminate; try (now destruct (Hexit c'));
      match goal with
      | |- context [method ?v w] =>
          destruct (method v w) as [[[]|e|c'] w3] eqn:Hcall; try discriminate;
          intros [= <- <-]; exists method; now split
      end.
Qed.

Lemma binding_is_lenient_witness :
  @bind_attribute example_client example_host lenient_args "foo" fresh_world
  = (Ok tt, logged "ERROR" "'AWSLambda' object has no attribute 'set_foo'" fresh_world) /\
  @bind_attribute example_client example_host lenient_args "func" fresh_world
  = (Ok tt, logged "ERROR" "object has no attribute '__name__'" fresh_world) /\
  for_each (@bind_attribute example_client example_host lenient_args)
    ["foo"; "func"] fresh_world
  = for_each (@bind_attribute example_client example_host lenient_args) ["func"]
      (logged "ERROR" "'AWSLambda' object has no attribute 'set_foo'" fresh_world) /\
  exists method,
    @get_method example_client example_host "set_name" fresh_world
    = (Ok method, fresh_world) /\
    method (VStr "my func") fresh_world
    = (Exit 1, snd (@bind_attribute example_client example_host lenient_args "name"
                      fresh_world)).
Proof.
  pose proof (@binding_is_lenient example_client example_host lenient_args "foo"
                fresh_world) as (Hfoo & _ & Hnext & _ & _).
  pose proof (@binding_is_lenient example_client example_host lenient_args "func"
                fresh_world) as (_ & Hfunc & _ & _ & _).
  pose proof (@binding_is_lenient example_client example_host lenient_args "name"
                fresh_world) as (_ & _ & _ & _ & Hname).
  assert (Hfoo' := Hfoo ltac:(vm_compute; discriminate) ltac:(vm_compute; discriminate)
                         eq_refl).
  split; [exact Hfoo'|]. split; [|split].
  - apply (Hfunc set_func (attribute_error "object has no attribute '__name__'")
             fresh_world); [vm_compute; discriminate | reflexivity | reflexivity].
  - apply Hnext. exact Hfoo'.
  - apply Hname. apply run_with. vm_compute. reflexivity.
Defined.

(** C9 as stated does not hold: one bad field, an invalid name, ends the
    run with a failure status, and the argument after it is never bound. *)
Lemma invalid_name_aborts_binding :
  fst (@set_attributes example_client example_host
         [("name", VStr "my func"); ("memory", VInt 1024)] fresh_world) = Exit 1 /\
  self (snd (@set_attributes example_client example_host
               [("name", VStr "my func"); ("memory", VInt 1024)] fresh_world)) !! "memory"
  = Some (VInt 512).
Proof. split; vm_compute; reflexivity. Qed.

(** ** The image and the default name *)

(** C8, on the code. On a descriptor to which no name was given ([name] is
    still [None]) [set_image_id] stores the image and nothing else: the
    test [self.name == ""] fails for [None], the client's
    [create_function_name] is not called and the name stays unset. When a
    name was given, it is left as it is. *)
Theorem set_image_id_keeps_name `{Client : AWSClient} `{Hst : Host}
    (w : world) (image_id : pyval) :
  (self w !! "name" = Some VNone ->
   set_image_id image_id w = (Ok tt, assigned "image_id" image_id w) /\
   self (assigned "image_id" image_id w) !! "name" = Some VNone) /\
  (forall s, s <> "" -> self w !! "name" = Some (VStr s) ->
   set_image_id image_id w = (Ok tt, assigned "image_id" image_id w) /\
   self (assigned "image_id" image_id w) !! "name" = Some (VStr s)).
Proof.
  assert (Hrun : forall name, self w !! "name" = Some name -> py_eq_str name "" = false ->
            set_image_id image_id w = (Ok tt, assigned "image_id" image_id w) /\
            self (assigned "image_id" image_id w) !! "name" = Some name).
  { intros name Hname Hne.
    assert (Hname' : self (assigned "image_id" image_id w) !! "name" = Some name)
      by (simpl; now rewrite lookup_insert_ne).
    split; [|exact Hname']. unfold set_image_id.
    rewrite (bind_step (setattr "image_id" image_id) _ w
               (assigned "image_id" image_id w) tt eq_refl).
    rewrite (bind_step (hasattr "name") _ _ _ true (hasattr_some _ _ _ Hname')).
    cbn [negb].
    rewrite (bind_step (bind (getattr "name") _) _ _
               (assigned "image_id" image_id w) false).
    - reflexivity.
    - rewrite (bind_step _ _ _ _ _ (getattr_some _ _ _ Hname')). unfold ret.
      now rewrite Hne. }
  split.
  - intros Hname. now apply Hrun.
  - intros s Hs Hname. apply Hrun; [exact Hname|]. now apply String.eqb_neq.
Qed.

Lemma set_image_id_keeps_name_witness :
  (@set_image_id example_client example_host (VStr "grycap/cowsay") fresh_world
   = (Ok tt, assigned "image_id" (VStr "grycap/cowsay") fresh_world) /\
   self (assigned "image_id" (VStr "grycap/cowsay") fresh_world) !! "name" = Some VNone) /\
  (@set_image_id example_client example_host (VStr "grycap/cowsay") myfunc_world
   = (Ok tt, assigned "image_id" (VStr "grycap/cowsay") myfunc_world) /\
   self (assigned "image_id" (VStr "grycap/cowsay") myfunc_world) !! "name"
   = Some (VStr "myfunc")).
Proof.
  split.
  - apply (proj1 (@set_image_id_keeps_name example_client example_host fresh_world
                    (VStr "grycap/cowsay"))).
    vm_compute. reflexivity.
  - apply (proj2 (@set_image_id_keeps_name example_client example_host myfunc_world
                    (VStr "grycap/cowsay")) "myfunc"); [discriminate|].
    vm_compute. reflexivity.
Defined.

(** ** Environment variables *)

Lemma dict_get_set_eq {V : Type} (k : string) (v : V) (d : list (string * V)) :
  dict_get k (dict_set k v d) = Some v.
Proof.
  induction d as [|[k' v'] d IH]; simpl.
  - now rewrite String.eqb_refl.
  - destruct (String.eqb k' k) eqn:Hk; simpl.
    + now rewrite String.eqb_refl.
    + now rewrite Hk.
Qed.

Lemma dict_keys_set {V : Type} (k : string) (v : V) (d : list (string * V)) :
  dict_keys (dict_set k v d)
  = if bool_decide (k ∈ dict_keys d) then dict_keys d else (dict_keys d ++ [k])%list.
Proof.
  induction d as [|[k' v'] d IH]; simpl; [reflexivity|].
  destruct (String.eqb_spec k' k) as [->|Hne]; simpl.
  - now rewrite bool_decide_eq_true_2 by constructor.
  - rewrite IH. destruct (bool_decide_reflect (k ∈ dict_keys d)) as [Hin|Hin].
    + now rewrite bool_decide_eq_true_2 by now constructor.
    + rewrite bool_decide_eq_false_2; [reflexivity|].
      intros Hk. apply elem_of_cons in Hk as [?|?]; congruence.
Qed.

Lemma dict_set_NoDup {V : Type} (k : string) (v : V) (d : list (string * V)) :
  NoDup (dict_keys d) -> NoDup (dict_keys (dict_set k v d)).
Proof.
  intros Hd. rewrite dict_keys_set.
  destruct (bool_decide_reflect (k ∈ dict_keys d)) as [Hin|Hin]; [exact Hd|].
  apply NoDup_app. split; [exact Hd|]. split; [|apply NoDup_singleton].
  intros x Hx Hk. apply list_elem_of_singleton in Hk as ->. contradiction.
Qed.

Lemma dict_set_twice {V : Type} (k : string) (v1 v2 : V) (d : list (string * V)) :
  dict_set k v2 (dict_set k v1 d) = dict_set k v2 d.
Proof.
  induction d as [|[k' v'] d IH]; simpl.
  - now rewrite String.eqb_refl.
  - destruct (String.eqb k' k) eqn:Hk; simpl.
    + now rewrite String.eqb_refl.
    + now rewrite Hk, IH.
Qed.

Lemma split_on_none (sep : ascii) (s : string) :
  ~ In sep (chars s) -> split_on sep s = [s].
Proof.
  induction s as [|c s IH]; simpl; [reflexivity|]. intros Hin.
  destruct (Ascii.eqb_spec c sep) as [->|_]; [destruct Hin; now left|].
  rewrite IH; [reflexivity|]. intros Hs. apply Hin. now right.
Qed.

Lemma split_on_pair (sep : ascii) (k v : string) :
  ~ In sep (chars k) -> ~ In sep (chars v) ->
  split_on sep (k ++ String sep v) = [k; v].
Proof.
  intros Hk Hv. induction k as [|c k IH]; simpl.
  - rewrite Ascii.eqb_refl. now rewrite split_on_none.
  - destruct (Ascii.eqb_spec c sep) as [->|_]; [destruct Hk; now left|].
    rewrite IH; [reflexivity|]. intros Hs. apply Hk. now right.
Qed.

Lemma env_variables_inv (w : world) (vars : list (string * pyval)) :
  env_variables w = Some vars ->
  exists d, self w !! "environment" = Some (VDict d) /\
            dict_get "Variables" d = Some (VDict vars).
Proof.
  unfold env_variables. destruct (self w !! "environment") as [[]|]; try discriminate.
  destruct (dict_get "Variables" d) as [[]|] eqn:Hd; try discriminate.
  intros [= ->]. now exists d.
Qed.

Lemma set_evironment_variable_ok (key : string) (value : pyval) (w : world)
    (vars : list (string * pyval)) :
  env_variables w = Some vars ->
  exists w', set_evironment_variable key value w = (Ok tt, w') /\
             env_variables w' = Some (dict_set key value vars).
Proof.
  intros Henv. apply env_variables_inv in Henv as (d & Hself & Hvars).
  eexists. split.
  - unfold set_evironment_variable.
    rewrite (bind_step _ _ _ _ _ (getattr_some _ _ _ Hself)).
    unfold lift, bind. cbn [setitem_path getitem setitem]. rewrite Hvars. reflexivity.
  - unfold env_variables. simpl. rewrite lookup_insert_eq.
    now rewrite dict_get_set_eq.
Qed.

Lemma set_evironment_variable_inv (key : string) (value : pyval) (w w' : world) :
  set_evironment_variable key value w = (Ok tt, w') ->
  exists vars, env_variables w = Some vars /\
               env_variables w' = Some (dict_set key value vars).
Proof.
  intros Hrun. pose proof Hrun as Hw. unfold set_evironment_variable in Hrun.
  apply bind_ok in Hrun as (env & w1 & Hget & Hrun).
  apply getattr_ok in Hget as [-> Hself].
  apply bind_ok in Hrun as (env' & w2 & Hset & Hrun).
  unfold lift in Hset. cbn [setitem_path] in Hset.
  destruct env as [| | | | |d| | | | |]; try discriminate Hset.
  cbn [getitem] in Hset.
  destruct (dict_get "Variables" d) as [[| | | | |vars| | | | |]|] eqn:Hvars;
    try discriminate Hset.
  exists vars. split; [unfold env_variables; now rewrite Hself, Hvars|].
  destruct (set_evironment_variable_ok key value w vars) as (w3 & Hrun3 & Henv3).
  { unfold env_variables. now rewrite Hself, Hvars. }
  rewrite Hrun3 in Hw. now injection Hw as <-.
Qed.

Lemma bind_one_variable (k v : string) (w : world)
    (vars : list (string * pyval)) :
  env_variables w = Some vars ->
  ~ In "="%char (chars k) -> ~ In "="%char (chars v) ->
  exists w', set_environment_variable_from (VStr (k ++ "=" ++ v)) w = (Ok tt, w') /\
             env_variables w' = Some (dict_set ("CONT_VAR_" ++ k) (VStr v) vars).
Proof.
  intros Henv Hk Hv. unfold set_environment_variable_from.
  change (k ++ "=" ++ v) with (k ++ String "=" v).
  rewrite (split_on_pair _ _ _ Hk Hv). now apply set_evironment_variable_ok.
Qed.

Lemma bound_variables_unique (items : list pyval) :
  forall (w w' : world) (vars : list (string * pyval)),
    env_variables w = Some vars -> NoDup (dict_keys vars) ->
    for_each set_environment_variable_from items w = (Ok tt, w') ->
    exists vars', env_variables w' = Some vars' /\ NoDup (dict_keys vars').
Proof.
  induction items as [|item items IH]; intros w w' vars Henv Hvars; simpl.
  - intros [= <-]. now exists vars.
  - intros Hrun. apply bind_ok in Hrun as ([] & w1 & Hstep & Hrun).
    unfold set_environment_variable_from in Hstep.
    destruct item as [| | |s| | | | | | |]; try discriminate Hstep.
    destruct (split_on "=" s) as [|k [|v rest]]; try discriminate Hstep.
    apply set_evironment_variable_inv in Hstep as (vars0 & Henv0 & Henv1).
    rewrite Henv in Henv0. injection Henv0 as <-.
    apply (IH w1 w' _ Henv1); [now apply dict_set_NoDup | exact Hrun].
Qed.

Lemma init_self_environment `{Hst : Host} (files : filesystem)
    (records : list (string * string)) (out : list string) :
  env_variables (World init_self files records out) = Some [].
Proof. vm_compute. reflexivity. Qed.

(** C7. Binding ['FOO=bar'] on a fresh descriptor leaves exactly one user
    entry, [CONT_VAR_FOO] with value [bar]. In general a variable [k=v] is
    stored under [CONT_VAR_k]; binding two variables with the same key
    leaves the entry of that key holding the last value; and the keys of
    the environment stay unique whatever is bound. *)
Theorem set_environment_variables_spec `{Hst : Host}
    (w : world) (vars : list (string * pyval)) :
  (forall files records out,
     exists w', set_environment_variables (VList [VStr "FOO=bar"])
                  (World init_self files records out) = (Ok tt, w') /\
                env_variables w' = Some [("CONT_VAR_FOO", VStr "bar")]) /\
  (env_variables w = Some vars -> NoDup (dict_keys vars) ->
   (forall k v, ~ In "="%char (chars k) -> ~ In "="%char (chars v) ->
      exists w', set_environment_variables (VList [VStr (k ++ "=" ++ v)]) w = (Ok tt, w') /\
                 env_variables w' = Some (dict_set ("CONT_VAR_" ++ k) (VStr v) vars) /\
                 dict_get ("CONT_VAR_" ++ k) (dict_set ("CONT_VAR_" ++ k) (VStr v) vars)
                 = Some (VStr v) /\
                 NoDup (dict_keys (dict_set ("CONT_VAR_" ++ k) (VStr v) vars))) /\
   (forall k v1 v2, ~ In "="%char (chars k) -> ~ In "="%char (chars v1) ->
      ~ In "="%char (chars v2) ->
      exists w', set_environment_variables
                   (VList [VStr (k ++ "=" ++ v1); VStr (k ++ "=" ++ v2)]) w = (Ok tt, w') /\
                 env_variables w' = Some (dict_set ("CONT_VAR_" ++ k) (VStr v2) vars) /\
                 dict_get ("CONT_VAR_" ++ k) (dict_set ("CONT_VAR_" ++ k) (VStr v2) vars)
                 = Some (VStr v2) /\
                 NoDup (dict_keys (dict_set ("CONT_VAR_" ++ k) (VStr v2) vars))) /\
   (forall variables w',
      set_environment_variables variables w = (Ok tt, w') ->
      exists vars', env_variables w' = Some vars' /\ NoDup (dict_keys vars'))).
Proof.
  assert (Hone : forall w0 vars0 k v,
            env_variables w0 = Some vars0 ->
            ~ In "="%char (chars k) -> ~ In "="%char (chars v) ->
            exists w', set_environment_variables (VList [VStr (k ++ "=" ++ v)]) w0
                       = (Ok tt, w') /\
                       env_variables w' = Some (dict_set ("CONT_VAR_" ++ k) (VStr v) vars0)).
  { intros w0 vars0 k v Henv Hk Hv.
    destruct (bind_one_variable k v w0 vars0 Henv Hk Hv) as (w1 & Hrun & Henv1).
    exists w1. split; [|exact Henv1].
    unfold set_environment_variables, lift, bind. cbn [py_iter for_each].
    unfold bind. now rewrite Hrun. }
  split.
  - intros files records out.
    apply (Hone _ [] "FOO" "bar" (init_self_environment files records out));
      simpl; intuition discriminate.
  - intros Henv Hvars. split; [|split].
    + intros k v Hk Hv. destruct (Hone w vars k v Henv Hk Hv) as (w1 & Hrun & Henv1).
      exists w1. repeat split; [exact Hrun | exact Henv1 | apply dict_get_set_eq |].
      now apply dict_set_NoDup.
    + intros k v1 v2 Hk Hv1 Hv2.
      destruct (bind_one_variable k v1 w vars Henv Hk Hv1) as (w1 & Hrun1 & Henv1).
      destruct (bind_one_variable k v2 w1 _ Henv1 Hk Hv2) as (w2 & Hrun2 & Henv2).
      rewrite dict_set_twice in Henv2.
      exists w2. repeat split; [|exact Henv2 | apply dict_get_set_eq |].
      * unfold set_environment_variables, lift, bind. cbn [py_iter for_each].
        unfold bind. now rewrite Hrun1, Hrun2.
      * now apply dict_set_NoDup.
    + intros variables w' Hrun. unfold set_environment_variables in Hrun.
      apply bind_ok in Hrun as (items & w1 & Hiter & Hrun).
      injection Hiter as _ <-. now apply (bound_variables_unique items w w' vars).
Qed.

Lemma set_environment_variables_spec_witness :
  (exists w', set_environment_variables (VList [VStr "FOO=bar"]) fresh_world
              = (Ok tt, w') /\
              env_variables w' = Some [("CONT_VAR_FOO", VStr "bar")]) /\
  (exists w', set_environment_variables
                (VList [VStr "FOO=bar"; VStr "FOO=baz"]) fresh_world = (Ok tt, w') /\
              env_variables w' = Some [("CONT_VAR_FOO", VStr "baz")]) /\
  (exists vars', env_variables
                   (snd (set_environment_variables
                           (VList [VStr "A=1"; VStr "B=2"; VStr "A=3"]) fresh_world))
                 = Some vars' /\ NoDup (dict_keys vars')).
Proof.
  destruct (@set_environment_variables_spec example_host fresh_world [])
    as (_ & Hgen).
  destruct (Hgen ltac:(vm_compute; reflexivity) ltac:(constructor))
    as (Hone & Htwo & Hany).
  split; [|split].
  - destruct (Hone "FOO" "bar") as (w' & Hrun & Henv & _);
      [simpl; intuition discriminate..|].
    exists w'. now split.
  - destruct (Htwo "FOO" "bar" "baz") as (w' & Hrun & Henv & _);
      [simpl; intuition discriminate..|].
    exists w'. now split.
  - apply (Hany (VList [VStr "A=1"; VStr "B=2"; VStr "A=3"])).
    apply (run_ok (set_environment_variables
                     (VList [VStr "A=1"; VStr "B=2"; VStr "A=3"]))).
    vm_compute. reflexivity.
Defined.

(** ** The configuration file *)

Lemma string_app_assoc (a b c : string) : (a ++ b) ++ c = a ++ b ++ c.
Proof.
  induction a as [|x a IH]; [reflexivity|].
  change (String x ((a ++ b) ++ c) = String x (a ++ b ++ c)). now rewrite IH.
Qed.

Lemma init_self_lookup `{Hst : Host} :
  init_self !! "description" = Some (VStr "Automatically generated lambda function") /\
  init_self !! "memory" = Some (VInt 512) /\
  init_self !! "time" = Some (VInt 300) /\
  init_self !! "region" = Some (VStr "us-east-1") /\
  init_self !! "timeout_threshold" = Some (VInt 10) /\
  init_self !! "role" = Some VNone.
Proof. repeat split; vm_compute; reflexivity. Qed.

Lemma os_path_isfile_none (path : string) (w : world) :
  fs_files (fs w) !! path = None -> os_path_isfile path w = (Ok false, w).
Proof.
  intros Hnone. unfold os_path_isfile, bind, get_fs, ret. rewrite Hnone.
  now rewrite bool_decide_eq_false_2 by (intros [? ?]; discriminate).
Qed.

Lemma os_path_isfile_some (path : string) (w : world) (c : content) :
  fs_files (fs w) !! path = Some c -> os_path_isfile path w = (Ok true, w).
Proof.
  intros Hsome. unfold os_path_isfile, bind, get_fs, ret. rewrite Hsome.
  now rewrite bool_decide_eq_true_2 by eauto.
Qed.

Lemma os_makedirs_new (path : string) (w : world) :
  fs_files (fs w) !! path = None ->
  os_makedirs path w
  = (Ok tt, World (self w)
              (FS (fs_files (fs w))
                  match fs_dirs (fs w) !! path with
                  | Some _ => fs_dirs (fs w)
                  | None => <[path:=Dir [] []]> (fs_dirs (fs w))
                  end)
              (log w) (stdout w)).
Proof.
  intros Hnone. unfold os_makedirs, bind, get_fs. rewrite Hnone.
  rewrite bool_decide_eq_false_2 by (intros [? ?]; discriminate).
  destruct w as [s [files dirs] l o]. simpl.
  now destruct (dirs !! path).
Qed.

Lemma default_config_written `{Hst : Host} (w : world) :
  self w = init_self ->
  create_default_config_file [] config_file_path w
  = (Exit 0,
     World (self w)
       (FS (<[config_file_path:=Ini default_config]> (fs_files (fs w))) (fs_dirs (fs w)))
       (log w ++ [("WARNING", config_created_message config_file_path)]) (stdout w)).
Proof.
  intros Hself. destruct init_self_lookup as (Hd & Hm & Ht & Hr & Hth & _).
  rewrite <- Hself in Hd, Hm, Ht, Hr, Hth.
  unfold create_default_config_file, get_default_json_config.
  rewrite (bind_step (bind (getattr "description") _) _ w w
    [ ("lambda_description", VStr "Automatically generated lambda function");
      ("lambda_memory", VInt 512); ("lambda_time", VInt 300);
      ("lambda_region", VStr "us-east-1"); ("lambda_role", VStr "");
      ("lambda_timeout_threshold", VInt 10) ]).
  - reflexivity.
  - rewrite (bind_step _ _ _ _ _ (getattr_some _ _ _ Hd)).
    rewrite (bind_step _ _ _ _ _ (getattr_some _ _ _ Hm)).
    rewrite (bind_step _ _ _ _ _ (getattr_some _ _ _ Ht)).
    rewrite (bind_step _ _ _ _ _ (getattr_some _ _ _ Hr)).
    now rewrite (bind_step _ _ _ _ _ (getattr_some _ _ _ Hth)).
Qed.

Lemma check_config_file_absent `{Hst : Host} (w : world) :
  self w = init_self ->
  fs_files (fs w) !! config_file_path = None ->
  fs_files (fs w) !! config_file_folder = None ->
  exists dirs,
    check_config_file w
    = (Exit 0,
       World (self w)
         (FS (<[config_file_path:=Ini default_config]> (fs_files (fs w))) dirs)
         (log w ++ [("WARNING", config_created_message config_file_path)]) (stdout w)) /\
    is_Some (dirs !! config_file_folder) /\
    config_file_path = home ++ "/.scar/scar.cfg" /\
    config_created_message config_file_path
    = "Config file '" ++ config_file_path ++ "' created.
Please, set first a valid lambda role to be used.".
Proof.
  intros Hself Hfile Hfolder.
  assert (Hpath : config_file_path = home ++ "/.scar/scar.cfg").
  { unfold config_file_path, config_file_folder, config_file_name.
    now rewrite string_app_assoc. }
  pose (dirs := match fs_dirs (fs w) !! config_file_folder with
                | Some _ => fs_dirs (fs w)
                | None => <[config_file_folder:=Dir [] []]> (fs_dirs (fs w))
                end).
  exists dirs. split; [|split; [|split; [exact Hpath | reflexivity]]].
  - unfold check_config_file.
    rewrite (bind_step _ _ _ _ _ (os_path_isfile_none _ _ Hfile)).
    apply bind_exit.
    rewrite (bind_step _ _ _ _ _ (os_makedirs_new _ _ Hfolder)).
    fold dirs. now rewrite default_config_written.
  - unfold dirs. destruct (fs_dirs (fs w) !! config_file_folder) eqn:Hdir; [eauto|].
    rewrite lookup_insert_eq. eauto.
Qed.


(** C4. When the config file is absent, [check_config_file] creates the
    containing directory, writes the file with the built-in defaults (the
    role empty, memory 512, time 300, the region, the description, the
    timeout threshold 10), logs a warning that asks for a role, and ends the
    run with exit code 0. *)
Theorem first_run_creates_config `{Hst : Host} (w : world) :
  self w = init_self ->
  fs_files (fs w) !! config_file_path = None ->
  fs_files (fs w) !! config_file_folder = None ->
  exists dirs,
    check_config_file w
    = (Exit 0,
       World (self w)
         (FS (<[config_file_path:=Ini default_config]> (fs_files (fs w))) dirs)
         (log w ++ [("WARNING", config_created_message config_file_path)]) (stdout w)) /\
    is_Some (dirs !! config_file_folder) /\
    config_file_path = home ++ "/.scar/scar.cfg" /\
    config_created_message config_file_path
    = "Config file '" ++ config_file_path ++ "' created.
Please, set first a valid lambda role to be used.".
Proof. apply check_config_file_absent. Qed.

Lemma first_run_creates_config_witness :
  exists dirs,
    @check_config_file example_host fresh_world
    = (Exit 0,
       World (self fresh_world)
         (FS (<[@config_file_path example_host:=Ini default_config]>
                (fs_files (fs fresh_world))) dirs)
         (log fresh_world
          ++ [("WARNING", config_created_message (@config_file_path example_host))])
         (stdout fresh_world)) /\
    is_Some (dirs !! @config_file_folder example_host) /\
    @config_file_path example_host = "/home/user" ++ "/.scar/scar.cfg" /\
    config_created_message (@config_file_path example_host)
    = "Config file '" ++ @config_file_path example_host ++ "' created.
Please, set first a valid lambda role to be used.".
Proof.
  apply (@first_run_creates_config example_host fresh_world).
  - reflexivity.
  - vm_compute. reflexivity.
  - vm_compute. reflexivity.
Defined.

(** ** Reading the configuration back *)


(** What parsing leaves in [role]: the option of the file, or else the
    value the descriptor had. *)
Lemma parse_config_file_values_role
    (cfg : list (string * list (string * string))) (section : list (string * string))
    (w w' : world) :
  dict_get "scar" cfg = Some section ->
  parse_config_file_values cfg w = (Ok tt, w') ->
  exists role, self w !! "role" = Some role /\
               self w' !! "role" = Some (config_get section "lambda_role" role).
Proof.
  intros Hsection. unfold parse_config_file_values. rewrite Hsection. intros Hrun.
  apply bind_ok in Hrun as (role & w1 & Hget & Hrun).
  apply getattr_ok in Hget as [-> Hrole].
  apply bind_ok in Hrun as ([] & w2 & Hset & Hrun).
  injection Hset as Hw. subst w2.
  exists role. split; [exact Hrole|].
  match type of Hrun with
  | ?rest _ = _ => assert (Hframe : frames "role" rest) by frames_go
  end.
  specialize (Hframe (assigned "role" (config_get section "lambda_role" role) w)).
  unfold assigned in Hframe. rewrite Hrun in Hframe. simpl in Hframe.
  now rewrite Hframe, lookup_insert_eq.
Qed.



Lemma config_read_ini `{Hst : Host} (w : world)
    (cfg : list (string * list (string * string))) :
  fs_files (fs w) !! config_file_path = Some (Ini cfg) ->
  config_read config_file_path w = (Ok cfg, w).
Proof. intros Hfile. unfold config_read, bind, get_fs. now rewrite Hfile. Qed.



(** ** The archive *)


Lemma string_app_nil_r (a : string) : a ++ "" = a.
Proof.
  induction a as [|c a IH]; [reflexivity|].
  change (String c (a ++ "") = String c a). now rewrite IH.
Qed.


























(** C2, on the code. For the directory [payload] passed as [payload/], the
    two files [a.txt] and [sub/b.txt] are archived as [extra/.txt] and
    [extra/ub/b.txt]: the first character of each relative path is lost,
    because [rootlen] counts a separator the path already ends with. Passed
    as [payload], the same directory gives [extra/a.txt] and
    [extra/sub/b.txt]. In both cases the archive holds, before them, one
    entry [myfunc.py], one [udocker] and one library bundle, and the
    variable [EXTRA_PAYLOAD] is registered. *)
Theorem extra_payload_trailing_slash :
  fst (@create_zip_file example_host (payload_world "payload/"))
  = Ok (VArchive [ ("myfunc.py", "myfunc.py");
                   ("udocker", "/opt/scar/lambda/udocker");
                   ("udocker-1.1.0-RC2.tar.gz", "/opt/scar/lambda/udocker-1.1.0-RC2.tar.gz");
                   ("extra/.txt", "payload/a.txt");
                   ("extra/ub/b.txt", "payload/sub/b.txt") ]) /\
  env_variables (snd (@create_zip_file example_host (payload_world "payload/")))
  = Some [("EXTRA_PAYLOAD", VStr "/var/task/extra/")] /\
  fst (@create_zip_file example_host (payload_world "payload"))
  = Ok (VArchive [ ("myfunc.py", "myfunc.py");
                   ("udocker", "/opt/scar/lambda/udocker");
                   ("udocker-1.1.0-RC2.tar.gz", "/opt/scar/lambda/udocker-1.1.0-RC2.tar.gz");
                   ("extra/a.txt", "payload/a.txt");
                   ("extra/sub/b.txt", "payload/sub/b.txt") ]) /\
  env_variables (snd (@create_zip_file example_host (payload_world "payload")))
  = Some [("EXTRA_PAYLOAD", VStr "/var/task/extra/")].
Proof. repeat split; vm_compute; reflexivity. Qed.

(** * Further properties of the descriptor *)

(** ** Names the descriptor stores *)














(** ** Observations a computation keeps *)

Lemma keeps_ret {A B : Type} (obs : world -> B) (x : A) : keeps obs (ret x).
Proof. now intros w. Qed.

Lemma keeps_raise {A B : Type} (obs : world -> B) (e : exn) : keeps obs (@raise A e).
Proof. now intros w. Qed.

Lemma keeps_sys_exit {A B : Type} (obs : world -> B) (c : Z) : keeps obs (@sys_exit A c).
Proof. now intros w. Qed.

Lemma keeps_lift {A B : Type} (obs : world -> B) (r : result A) : keeps obs (lift r).
Proof. now intros w. Qed.

Lemma keeps_getattr {B : Type} (obs : world -> B) (a : string) : keeps obs (getattr a).
Proof. intros w. unfold getattr. now destruct (self w !! a). Qed.

Lemma keeps_hasattr {B : Type} (obs : world -> B) (a : string) : keeps obs (hasattr a).
Proof. now intros w. Qed.

Lemma keeps_get_fs {B : Type} (obs : world -> B) : keeps obs get_fs.
Proof. now intros w. Qed.

Lemma keeps_bind {A B C : Type} (obs : world -> C) (m : M A) (k : A -> M B) :
  keeps obs m -> (forall x, keeps obs (k x)) -> keeps obs (bind m k).
Proof.
  intros Hm Hk w. unfold bind. specialize (Hm w).
  destruct (m w) as [[x|e|c] w1]; simpl in *; [|exact Hm..].
  rewrite <- Hm. apply Hk.
Qed.

Lemma keeps_try_except {A B : Type} (obs : world -> B) (body : M A) (handler : exn -> M A) :
  keeps obs body -> (forall e, keeps obs (handler e)) -> keeps obs (try_except body handler).
Proof.
  intros Hb Hh w. unfold try_except. specialize (Hb w).
  destruct (body w) as [[x|e|c] w1]; simpl in *; [exact Hb| |exact Hb].
  rewrite <- Hb. apply Hh.
Qed.

Lemma keeps_for_each {A B : Type} (obs : world -> B) (body : A -> M unit) (l : list A) :
  (forall x, keeps obs (body x)) -> keeps obs (for_each body l).
Proof.
  intros Hb. induction l as [|x l IH]; simpl; [apply keeps_ret|].
  apply keeps_bind; auto.
Qed.

(** ** Environment variables: malformed input and name spaces *)

Lemma dict_get_set_ne {V : Type} (k k' : string) (v : V) (d : list (string * V)) :
  k <> k' -> dict_get k (dict_set k' v d) = dict_get k d.
Proof.
  intros Hne. induction d as [|[k0 v0] d IH]; simpl.
  - destruct (String.eqb_spec k' k); [congruence | reflexivity].
  - destruct (String.eqb_spec k0 k') as [->|Hk0]; simpl.
    + destruct (String.eqb_spec k' k); [congruence | reflexivity].
    + destruct (String.eqb_spec k0 k); [reflexivity | exact IH].
Qed.

Lemma dict_set_same {V : Type} (k : string) (v : V) (d : list (string * V)) :
  dict_get k d = Some v -> dict_set k v d = d.
Proof.
  induction d as [|[k0 v0] d IH]; simpl; [discriminate|].
  destruct (String.eqb_spec k0 k) as [->|_].
  - now intros [= ->].
  - intros Hd. now rewrite IH.
Qed.

Lemma split_on_first (sep : ascii) (k rest : string) :
  ~ In sep (chars k) -> split_on sep (k ++ String sep rest) = k :: split_on sep rest.
Proof.
  intros Hk. induction k as [|c k IH]; simpl.
  - now rewrite Ascii.eqb_refl.
  - destruct (Ascii.eqb_spec c sep) as [->|_]; [destruct Hk; now left|].
    rewrite IH; [reflexivity|]. intros Hs. apply Hk. now right.
Qed.

Lemma set_evironment_variable_fail (key : string) (value : pyval) (w w' : world)
    (r : result unit) :
  set_evironment_variable key value w = (r, w') -> r <> Ok tt -> w' = w.
Proof.
  unfold set_evironment_variable, bind, getattr, lift, setattr.
  destruct (self w !! "environment") as [environment|]; [|now intros [= <- <-]].
  destruct (setitem_path [KStr "Variables"; KStr key] value environment);
    intros [= <- <-]; [now intros [] | reflexivity..].
Qed.

Lemma set_evironment_variable_keeps (key : string) (value : pyval) (k : string) :
  k <> key -> keeps (env_get k) (set_evironment_variable key value).
Proof.
  intros Hne w. destruct (set_evironment_variable key value w) as [r w'] eqn:Hrun.
  simpl. destruct r as [[]|e|c].
  - apply set_evironment_variable_inv in Hrun as (vars & Henv & Henv').
    unfold env_get. rewrite Henv, Henv'. now apply dict_get_set_ne.
  - now rewrite (set_evironment_variable_fail _ _ _ _ _ Hrun).
  - now rewrite (set_evironment_variable_fail _ _ _ _ _ Hrun).
Qed.

Lemma string_prefix_app (p s : string) : String.prefix p (p ++ s) = true.
Proof.
  induction p as [|c p IH]; simpl; [now destruct s|].
  destruct (ascii_dec c c); [exact IH | congruence].
Qed.

Lemma set_environment_variable_from_index_error (s : string) (w : world) :
  ~ In "="%char (chars s) ->
  set_environment_variable_from (VStr s) w
  = (Raise (index_error "list index out of range"), w).
Proof.
  intros Hs. unfold set_environment_variable_from. now rewrite (split_on_none _ _ Hs).
Qed.

(** X4. A variable is read up to its second [=]: of [k=v=rest] only [v] is
    stored, under [CONT_VAR_k]. A variable without [=] raises [IndexError]
    and stores nothing; in a list, the variables before it stay bound and
    those after it are not looked at. *)
Theorem environment_variable_edges (k v s : string) (w : world) :
  ~ In "="%char (chars k) -> ~ In "="%char (chars v) -> ~ In "="%char (chars s) ->
  (forall rest,
     set_environment_variable_from (VStr (k ++ "=" ++ v ++ "=" ++ rest)) w
     = set_evironment_variable ("CONT_VAR_" ++ k) (VStr v) w) /\
  set_environment_variables (VList [VStr s]) w
  = (Raise (index_error "list index out of range"), w) /\
  (forall before after w1,
     set_environment_variables (VList before) w = (Ok tt, w1) ->
     set_environment_variables (VList (before ++ VStr s :: after)) w
     = (Raise (index_error "list index out of range"), w1)).
Proof.
  intros Hk Hv Hs. split; [|split].
  - intros rest. unfold set_environment_variable_from.
    change (k ++ "=" ++ v ++ "=" ++ rest) with (k ++ String "=" (v ++ String "=" rest)).
    now rewrite (split_on_first _ _ _ Hk), (split_on_first _ _ _ Hv).
  - unfold set_environment_variables, lift, bind. cbn [py_iter for_each]. unfold bind.
    now rewrite (set_environment_variable_from_index_error s w Hs).
  - intros before after w1.
    unfold set_environment_variables, lift, bind. cbn [py_iter].
    revert w. induction before as [|item before IH]; intros w; cbn [for_each app].
    + unfold ret. intros [= <-]. unfold bind.
      now rewrite (set_environment_variable_from_index_error s w Hs).
    + unfold bind. destruct (set_environment_variable_from item w) as [[[]|e|c] w2];
        [apply IH | discriminate..].
Qed.

Lemma environment_variable_edges_witness :
  (forall rest,
     set_environment_variable_from (VStr ("OPTS" ++ "=" ++ "-a" ++ "=" ++ rest)) fresh_world
     = set_evironment_variable ("CONT_VAR_" ++ "OPTS") (VStr "-a") fresh_world) /\
  set_environment_variables (VList [VStr "DEBUG"]) fresh_world
  = (Raise (index_error "list index out of range"), fresh_world) /\
  (forall before after w1,
     set_environment_variables (VList before) fresh_world = (Ok tt, w1) ->
     set_environment_variables (VList (before ++ VStr "DEBUG" :: after)) fresh_world
     = (Raise (index_error "list index out of range"), w1)).
Proof.
  apply (environment_variable_edges "OPTS" "-a" "DEBUG" fresh_world);
    simpl; intuition discriminate.
Defined.

(** X5. Whatever is bound, and however the binding ends, a variable whose
    name does not start with [CONT_VAR_] keeps its value: user variables
    cannot overwrite the ones the supervisor relies on. *)
Theorem user_variables_are_namespaced (variables : pyval) (k : string) :
  String.prefix "CONT_VAR_" k = false ->
  keeps (env_get k) (set_environment_variables variables).
Proof.
  intros Hk. unfold set_environment_variables.
  apply keeps_bind; [apply keeps_lift | intros items].
  apply keeps_for_each. intros item. unfold set_environment_variable_from.
  destruct item as [| | |s| | | | | | |]; try apply keeps_raise.
  destruct (split_on "=" s) as [|name [|value rest]]; try apply keeps_raise.
  apply set_evironment_variable_keeps. intros ->.
  now rewrite string_prefix_app in Hk.
Qed.

Lemma user_variables_are_namespaced_witness :
  env_get "UDOCKER_DIR"
    (snd (set_environment_variables (VList [VStr "UDOCKER_DIR=/x"; VStr "broken"])
            fresh_world))
  = env_get "UDOCKER_DIR" fresh_world.
Proof.
  apply (user_variables_are_namespaced
           (VList [VStr "UDOCKER_DIR=/x"; VStr "broken"]) "UDOCKER_DIR").
  reflexivity.
Defined.

(** ** The variables the supervisor needs *)

Lemma env_get_set_eq (key : string) (value : pyval) (w w' : world) :
  set_evironment_variable key value w = (Ok tt, w') -> env_get key w' = Some value.
Proof.
  intros Hrun. apply set_evironment_variable_inv in Hrun as (vars & _ & Henv).
  unfold env_get. rewrite Henv. apply dict_get_set_eq.
Qed.

Lemma env_get_set_ne (key : string) (value : pyval) (k : string) (w w' : world) :
  set_evironment_variable key value w = (Ok tt, w') -> k <> key ->
  env_get k w' = env_get k w.
Proof.
  intros Hrun Hne. pose proof (set_evironment_variable_keeps key value k Hne w) as Hk.
  now rewrite Hrun in Hk.
Qed.

Lemma set_evironment_variable_frame (key : string) (value : pyval) (a : string)
    (w w' : world) :
  set_evironment_variable key value w = (Ok tt, w') -> a <> "environment" ->
  self w' !! a = self w !! a.
Proof.
  intros Hrun Ha. pose proof (frames_set_evironment_variable a key value Ha w) as Hf.
  now rewrite Hrun in Hf.
Qed.

Lemma set_evironment_variable_runs (key : string) (value : pyval) (w : world) :
  is_Some (env_variables w) -> exists w', set_evironment_variable key value w = (Ok tt, w').
Proof.
  intros [vars Henv].
  destruct (set_evironment_variable_ok key value w vars Henv) as (w' & Hrun & _).
  now exists w'.
Qed.

Lemma set_evironment_variable_some (key : string) (value : pyval) (w w' : world) :
  set_evironment_variable key value w = (Ok tt, w') -> is_Some (env_variables w').
Proof.
  intros Hrun. apply set_evironment_variable_inv in Hrun as (vars & _ & Henv). eauto.
Qed.

Lemma set_evironment_variable_same (key : string) (value : pyval) (w : world) :
  env_get key w = Some value -> set_evironment_variable key value w = (Ok tt, w).
Proof.
  unfold env_get. destruct (env_variables w) as [vars|] eqn:Henv; [|discriminate].
  intros Hget. apply env_variables_inv in Henv as (d & Hself & Hvars).
  unfold set_evironment_variable.
  rewrite (bind_step _ _ _ _ _ (getattr_some _ _ _ Hself)).
  unfold lift, bind. cbn [setitem_path getitem setitem]. rewrite Hvars.
  rewrite (dict_set_same _ _ _ Hget), (dict_set_same _ _ _ Hvars).
  unfold setattr. rewrite (insert_id _ _ _ Hself). now destruct w.
Qed.

(** X6. On a descriptor that has its environment,
    [set_required_environment_variables] registers the udocker directory
    and tarball and the image id as they are stored (the image id is [None]
    when no image was bound), and the timeout threshold and the recursive
    flag as text. It changes no other variable, and running it again
    changes nothing. *)
Theorem required_variables_spec `{Hst : Host} (w : world)
    (udocker_dir udocker_tarball timeout_threshold recursive image_id : pyval) :
  is_Some (env_variables w) ->
  self w !! "udocker_dir" = Some udocker_dir ->
  self w !! "udocker_tarball" = Some udocker_tarball ->
  self w !! "timeout_threshold" = Some timeout_threshold ->
  self w !! "recursive" = Some recursive ->
  self w !! "image_id" = Some image_id ->
  exists w',
    set_required_environment_variables w = (Ok tt, w') /\
    env_get "UDOCKER_DIR" w' = Some udocker_dir /\
    env_get "UDOCKER_TARBALL" w' = Some udocker_tarball /\
    env_get "TIMEOUT_THRESHOLD" w' = Some (VStr (py_str timeout_threshold)) /\
    env_get "RECURSIVE" w' = Some (VStr (py_str recursive)) /\
    env_get "IMAGE_ID" w' = Some image_id /\
    (forall k, k ∉ required_variables -> env_get k w' = env_get k w) /\
    set_required_environment_variables w' = (Ok tt, w').
Proof.
  intros Henv Hud Hut Hth Hrc Him.
  destruct (set_evironment_variable_runs "UDOCKER_DIR" udocker_dir w Henv) as (w1 & H1).
  pose proof (set_evironment_variable_some _ _ _ _ H1) as Henv1.
  destruct (set_evironment_variable_runs "UDOCKER_TARBALL" udocker_tarball w1 Henv1)
    as (w2 & H2).
  pose proof (set_evironment_variable_some _ _ _ _ H2) as Henv2.
  destruct (set_evironment_variable_runs "TIMEOUT_THRESHOLD"
              (VStr (py_str timeout_threshold)) w2 Henv2) as (w3 & H3).
  pose proof (set_evironment_variable_some _ _ _ _ H3) as Henv3.
  destruct (set_evironment_variable_runs "RECURSIVE" (VStr (py_str recursive)) w3 Henv3)
    as (w4 & H4).
  pose proof (set_evironment_variable_some _ _ _ _ H4) as Henv4.
  destruct (set_evironment_variable_runs "IMAGE_ID" image_id w4 Henv4) as (w5 & H5).
  assert (Hself : forall a, a <> "environment" -> self w5 !! a = self w !! a).
  { intros a Ha.
    rewrite (set_evironment_variable_frame _ _ a _ _ H5 Ha),
      (set_evironment_variable_frame _ _ a _ _ H4 Ha),
      (set_evironment_variable_frame _ _ a _ _ H3 Ha),
      (set_evironment_variable_frame _ _ a _ _ H2 Ha).
    exact (set_evironment_variable_frame _ _ a _ _ H1 Ha). }
  assert (Hrun : forall w0 v1 v2 v3 v4 v5 u1 u2 u3 u4 u5,
            self w0 !! "udocker_dir" = Some v1 -> set_evironment_variable "UDOCKER_DIR" v1 w0 = (Ok tt, u1) ->
            self u1 !! "udocker_tarball" = Some v2 ->
            set_evironment_variable "UDOCKER_TARBALL" v2 u1 = (Ok tt, u2) ->
            self u2 !! "timeout_threshold" = Some v3 ->
            set_evironment_variable "TIMEOUT_THRESHOLD" (VStr (py_str v3)) u2 = (Ok tt, u3) ->
            self u3 !! "recursive" = Some v4 ->
            set_evironment_variable "RECURSIVE" (VStr (py_str v4)) u3 = (Ok tt, u4) ->
            self u4 !! "image_id" = Some v5 ->
            set_evironment_variable "IMAGE_ID" v5 u4 = (Ok tt, u5) ->
            set_required_environment_variables w0 = (Ok tt, u5)).
  { intros w0 v1 v2 v3 v4 v5 u1 u2 u3 u4 u5 G1 R1 G2 R2 G3 R3 G4 R4 G5 R5.
    unfold set_required_environment_variables.
    rewrite (bind_step _ _ _ _ _ (getattr_some _ _ _ G1)), (bind_step _ _ _ _ _ R1).
    rewrite (bind_step _ _ _ _ _ (getattr_some _ _ _ G2)), (bind_step _ _ _ _ _ R2).
    rewrite (bind_step _ _ _ _ _ (getattr_some _ _ _ G3)), (bind_step _ _ _ _ _ R3).
    rewrite (bind_step _ _ _ _ _ (getattr_some _ _ _ G4)), (bind_step _ _ _ _ _ R4).
    now rewrite (bind_step _ _ _ _ _ (getattr_some _ _ _ G5)). }
  assert (E5 : env_get "IMAGE_ID" w5 = Some image_id) by exact (env_get_set_eq _ _ _ _ H5).
  assert (E4 : env_get "RECURSIVE" w5 = Some (VStr (py_str recursive))).
  { rewrite (env_get_set_ne _ _ _ _ _ H5) by discriminate.
    exact (env_get_set_eq _ _ _ _ H4). }
  assert (E3 : env_get "TIMEOUT_THRESHOLD" w5 = Some (VStr (py_str timeout_threshold))).
  { rewrite (env_get_set_ne _ _ _ _ _ H5), (env_get_set_ne _ _ _ _ _ H4) by discriminate.
    exact (env_get_set_eq _ _ _ _ H3). }
  assert (E2 : env_get "UDOCKER_TARBALL" w5 = Some udocker_tarball).
  { rewrite (env_get_set_ne _ _ _ _ _ H5), (env_get_set_ne _ _ _ _ _ H4),
      (env_get_set_ne _ _ _ _ _ H3) by discriminate.
    exact (env_get_set_eq _ _ _ _ H2). }
  assert (E1 : env_get "UDOCKER_DIR" w5 = Some udocker_dir).
  { rewrite (env_get_set_ne _ _ _ _ _ H5), (env_get_set_ne _ _ _ _ _ H4),
      (env_get_set_ne _ _ _ _ _ H3), (env_get_set_ne _ _ _ _ _ H2) by discriminate.
    exact (env_get_set_eq _ _ _ _ H1). }
  exists w5. repeat split; try assumption.
  - apply (Hrun w udocker_dir udocker_tarball timeout_threshold recursive image_id
             w1 w2 w3 w4 w5); try assumption.
    + now rewrite (set_evironment_variable_frame _ _ _ _ _ H1).
    + now rewrite (set_evironment_variable_frame _ _ _ _ _ H2),
        (set_evironment_variable_frame _ _ _ _ _ H1).
    + now rewrite (set_evironment_variable_frame _ _ _ _ _ H3),
        (set_evironment_variable_frame _ _ _ _ _ H2),
        (set_evironment_variable_frame _ _ _ _ _ H1).
    + now rewrite (set_evironment_variable_frame _ _ _ _ _ H4),
        (set_evironment_variable_frame _ _ _ _ _ H3),
        (set_evironment_variable_frame _ _ _ _ _ H2),
        (set_evironment_variable_frame _ _ _ _ _ H1).
  - intros k Hk. unfold required_variables in Hk.
    rewrite !not_elem_of_cons in Hk. destruct Hk as (K1 & K2 & K3 & K4 & K5 & _).
    rewrite (env_get_set_ne _ _ _ _ _ H5 K5), (env_get_set_ne _ _ _ _ _ H4 K4),
      (env_get_set_ne _ _ _ _ _ H3 K3), (env_get_set_ne _ _ _ _ _ H2 K2).
    exact (env_get_set_ne _ _ _ _ _ H1 K1).
  - apply (Hrun w5 udocker_dir udocker_tarball timeout_threshold recursive image_id
             w5 w5 w5 w5 w5);
      first [ now apply set_evironment_variable_same
            | rewrite Hself by discriminate; assumption ].
Qed.

Lemma required_variables_spec_witness :
  exists w',
    @set_required_environment_variables example_host fresh_world = (Ok tt, w') /\
    env_get "UDOCKER_DIR" w' = Some (VStr "/tmp/home/.udocker") /\
    env_get "UDOCKER_TARBALL" w' = Some (VStr "/var/task/udocker-1.1.0-RC2.tar.gz") /\
    env_get "TIMEOUT_THRESHOLD" w' = Some (VStr (@py_str example_host (VInt 10))) /\
    env_get "RECURSIVE" w' = Some (VStr (@py_str example_host (VBool false))) /\
    env_get "IMAGE_ID" w' = Some VNone /\
    (forall k, k ∉ required_variables -> env_get k w' = env_get k fresh_world) /\
    @set_required_environment_variables example_host w' = (Ok tt, w').
Proof.
  apply (@required_variables_spec example_host fresh_world);
    first [ now exists [] | vm_compute; reflexivity ].
Defined.

Ltac keeps_step :=
  lazymatch goal with
  | |- keeps _ (bind _ _) => apply keeps_bind; [|intros]
  | |- keeps _ (getattr _) => apply keeps_getattr
  | |- keeps _ (try_except _ _) => apply keeps_try_except; [|intros]
  | |- keeps _ (for_each _ _) => apply keeps_for_each; intros
  | |- keeps _ (if ?b then _ else _) => destruct b
  | |- keeps _ (match ?x with _ => _ end) => destruct x
  | |- keeps _ _ => solve [intros ?; reflexivity]
  end.

Ltac keeps_go := repeat keeps_step.

(** ** The event source *)


Lemma assigned_twice (a : string) (v1 v2 : pyval) (w : world) :
  assigned a v2 (assigned a v1 w) = assigned a v2 w.
Proof. unfold assigned. simpl. now rewrite insert_insert_eq. Qed.

Lemma assigned_commute (a b : string) (v1 v2 : pyval) (w : world) :
  a <> b -> assigned a v1 (assigned b v2 w) = assigned b v2 (assigned a v1 w).
Proof. intros Hne. unfold assigned. simpl. now rewrite insert_insert_ne. Qed.

Lemma set_event_source_run (bucket key b : pyval) (w : world) :
  self w !! "event" = Some (event_template bucket key) ->
  set_event_source b w
  = (Ok tt, assigned "event" (event_template b key) (assigned "event_source" b w)).
Proof.
  intros Hevent. unfold set_event_source, bind, setattr, getattr. simpl.
  rewrite lookup_insert_ne by discriminate. now rewrite Hevent.
Qed.

Lemma set_event_source_file_name_run (bucket key k : pyval) (w : world) :
  self w !! "event" = Some (event_template bucket key) ->
  set_event_source_file_name k w = (Ok tt, assigned "event" (event_template bucket k) w).
Proof.
  intros Hevent. unfold set_event_source_file_name, bind, getattr. now rewrite Hevent.
Qed.

(** X7. On a descriptor whose event has the shape [__init__] gives it,
    [set_event_source] stores the bucket in [event_source] and in the
    bucket name of the event, [set_event_source_file_name] stores the
    object key of the event, neither touches what the other one wrote, and
    the two can be called in either order. After a bucket was stored,
    [has_event_source] answers [True]. *)
Theorem event_source_setters (w : world) (bucket key b k : pyval) :
  self w !! "event" = Some (event_template bucket key) ->
  set_event_source b w
  = (Ok tt, assigned "event" (event_template b key) (assigned "event_source" b w)) /\
  set_event_source_file_name k w
  = (Ok tt, assigned "event" (event_template bucket k) w) /\
  (set_event_source b ;; set_event_source_file_name k) w
  = (Ok tt, assigned "event" (event_template b k) (assigned "event_source" b w)) /\
  (set_event_source_file_name k ;; set_event_source b) w
  = (Ok tt, assigned "event" (event_template b k) (assigned "event_source" b w)) /\
  (b <> VNone ->
   has_event_source (snd (set_event_source b w))
   = (Ok (VBool true), snd (set_event_source b w))).
Proof.
  intros Hevent.
  pose proof (set_event_source_run bucket key b w Hevent) as Hb.
  pose proof (set_event_source_file_name_run bucket key k w Hevent) as Hk.
  split; [exact Hb|]. split; [exact Hk|]. split; [|split].
  - rewrite (bind_step _ _ _ _ _ Hb).
    rewrite (set_event_source_file_name_run b key k); [|apply lookup_insert_eq].
    now rewrite assigned_twice.
  - rewrite (bind_step _ _ _ _ _ Hk).
    rewrite (set_event_source_run bucket k b); [|apply lookup_insert_eq].
    rewrite (assigned_commute "event_source" "event") by discriminate.
    now rewrite assigned_twice.
  - intros Hnone. rewrite Hb. simpl. unfold has_event_source, bind, getattr. simpl.
    rewrite lookup_insert_ne by discriminate. rewrite lookup_insert_eq.
    now destruct b.
Qed.

Lemma event_source_setters_witness :
  set_event_source (VStr "bucket") fresh_world
  = (Ok tt, assigned "event" (event_template (VStr "bucket") (VStr ""))
              (assigned "event_source" (VStr "bucket") fresh_world)) /\
  set_event_source_file_name (VStr "in/a.jpg") fresh_world
  = (Ok tt, assigned "event" (event_template (VStr "") (VStr "in/a.jpg")) fresh_world) /\
  (set_event_source (VStr "bucket") ;; set_event_source_file_name (VStr "in/a.jpg"))
    fresh_world
  = (Ok tt, assigned "event" (event_template (VStr "bucket") (VStr "in/a.jpg"))
              (assigned "event_source" (VStr "bucket") fresh_world)) /\
  (set_event_source_file_name (VStr "in/a.jpg") ;; set_event_source (VStr "bucket"))
    fresh_world
  = (Ok tt, assigned "event" (event_template (VStr "bucket") (VStr "in/a.jpg"))
              (assigned "event_source" (VStr "bucket") fresh_world)) /\
  (VStr "bucket" <> VNone ->
   has_event_source (snd (set_event_source (VStr "bucket") fresh_world))
   = (Ok (VBool true), snd (set_event_source (VStr "bucket") fresh_world))).
Proof.
  apply (event_source_setters fresh_world (VStr "") (VStr "")).
  vm_compute. reflexivity.
Defined.

(** ** Values the client checks *)

Lemma bind_attribute_setter `{Client : AWSClient} `{Hst : Host}
    (args : list (string * pyval)) (attr : string) (method : pyval -> M unit) (w : world) :
  get_argument_value args attr <> VNone ->
  get_method ("set_" ++ attr) w = (Ok method, w) ->
  bind_attribute args attr w
  = try_except (method (get_argument_value args attr))
               (fun ex => logging_error (exn_msg ex)) w.
Proof.
  intros Hv Hget. unfold bind_attribute.
  destruct (get_argument_value args attr) eqn:Hval; try congruence;
    unfold try_except; now rewrite (bind_step _ _ _ _ _ Hget).
Qed.

(** X8. The binding pass stores a memory size or a timeout as the client's
    check returns it. A value the check turns down is logged as an error,
    the attribute keeps the value it had, and the pass goes on. *)
Theorem checked_values_are_stored `{Client : AWSClient} `{Hst : Host}
    (args : list (string * pyval)) (w : world) :
  (get_argument_value args "memory" <> VNone ->
   bind_attribute args "memory" w
   = match check_memory (get_argument_value args "memory") with
     | Ok memory => (Ok tt, assigned "memory" memory w)
     | Raise e => (Ok tt, logged "ERROR" (exn_msg e) w)
     | Exit c => (Exit c, w)
     end) /\
  (get_argument_value args "time" <> VNone ->
   bind_attribute args "time" w
   = match check_time (get_argument_value args "time") with
     | Ok time => (Ok tt, assigned "time" time w)
     | Raise e => (Ok tt, logged "ERROR" (exn_msg e) w)
     | Exit c => (Exit c, w)
     end).
Proof.
  split; intros Hv.
  - rewrite (bind_attribute_setter args "memory" set_memory w Hv eq_refl).
    unfold try_except, set_memory, bind, lift.
    now destruct (check_memory (get_argument_value args "memory")).
  - rewrite (bind_attribute_setter args "time" set_time w Hv eq_refl).
    unfold try_except, set_time, bind, lift.
    now destruct (check_time (get_argument_value args "time")).
Qed.

Lemma checked_values_are_stored_witness :
  @bind_attribute strict_client example_host [("memory", VInt 64)] "memory" fresh_world
  = (Ok tt, logged "ERROR" "Incorrect memory size specified" fresh_world) /\
  @bind_attribute strict_client example_host [("time", VInt 120)] "time" fresh_world
  = (Ok tt, assigned "time" (VInt 120) fresh_world).
Proof.
  split.
  - apply (proj1 (@checked_values_are_stored strict_client example_host
                    [("memory", VInt 64)] fresh_world)). discriminate.
  - apply (proj2 (@checked_values_are_stored strict_client example_host
                    [("time", VInt 120)] fresh_world)). discriminate.
Defined.

(** ** Loading a config file that is there *)



Lemma keeps_fs_parse_config_file_values
    (cfg : list (string * list (string * string))) :
  keeps fs (parse_config_file_values cfg).
Proof.
  unfold parse_config_file_values. destruct (dict_get "scar" cfg); keeps_go.
Qed.

Lemma keeps_fs_validate_lambda_configuration `{Hst : Host} :
  keeps fs validate_lambda_configuration.
Proof. unfold validate_lambda_configuration, finish_failed_execution. keeps_go. Qed.

Lemma keeps_fs_config_read (path : string) : keeps fs (config_read path).
Proof. unfold config_read. keeps_go. Qed.

Lemma not_exit_bind {A B : Type} (m : M A) (k : A -> M B) (c : Z) (w : world) :
  fst (m w) <> Exit c -> (forall x w1, fst (k x w1) <> Exit c) ->
  fst (bind m k w) <> Exit c.
Proof.
  intros Hm Hk. unfold bind. destruct (m w) as [[x|e|c'] w1]; simpl in *;
    [apply Hk | discriminate | intros [= ->]; now apply Hm].
Qed.

Lemma parse_config_file_values_no_exit
    (cfg : list (string * list (string * string))) (c : Z) (w : world) :
  fst (parse_config_file_values cfg w) <> Exit c.
Proof.
  unfold parse_config_file_values. destruct (dict_get "scar" cfg) as [section|];
    [|discriminate].
  assert (Hget : forall a w0, fst (getattr a w0) <> Exit c)
    by (intros a w0; unfold getattr; destruct (self w0 !! a); discriminate).
  assert (Hint : forall option fallback w0,
            fst (lift (config_getint section option fallback) w0) <> Exit c).
  { intros option fallback w0. unfold lift, config_getint. simpl.
    destruct (dict_get option section) as [s|]; [|discriminate].
    destruct (int_of_str s); discriminate. }
  repeat (apply not_exit_bind; [first [apply Hget | apply Hint | discriminate] | intros]).
  discriminate.
Qed.

Lemma validate_exit_status `{Hst : Host} (c : Z) (w : world) :
  fst (validate_lambda_configuration w) = Exit c -> c = 1.
Proof.
  unfold validate_lambda_configuration, bind, getattr.
  destruct (self w !! "role") as [role|]; [|discriminate].
  destruct (negb (py_truthy role) || py_eq_str role ""); [|discriminate].
  simpl. now intros [= <-].
Qed.

(** X10. When the config file is there, [check_config_file] only reads it:
    the file system is left as it was, whatever the file holds, and the
    run is never ended as a success; if it is ended, it is with a failure
    status. *)
Theorem existing_config_is_kept `{Hst : Host} (w : world) :
  is_Some (fs_files (fs w) !! config_file_path) ->
  fs (snd (check_config_file w)) = fs w /\
  forall c, fst (check_config_file w) = Exit c -> c = 1.
Proof.
  intros [c0 Hfile]. unfold check_config_file.
  rewrite (bind_step _ _ _ _ _ (os_path_isfile_some _ _ _ Hfile)).
  split.
  - apply (keeps_bind fs); [|intros; apply keeps_fs_validate_lambda_configuration].
    apply keeps_bind; [apply keeps_fs_config_read | intros].
    apply keeps_fs_parse_config_file_values.
  - intros c. unfold bind at 1.
    destruct (bind (config_read config_file_path) _ w) as [[[]|e|c'] w1] eqn:Hload.
    + apply validate_exit_status.
    + discriminate.
    + simpl. intros [= ->]. exfalso. revert Hload. unfold config_read, get_fs, bind.
      rewrite Hfile. destruct c0 as [s|cfg|entries]; try discriminate.
      intros Hparse. apply (parse_config_file_values_no_exit cfg c w).
      unfold ret in Hparse. now rewrite Hparse.
Qed.

Lemma existing_config_is_kept_witness :
  fs (snd (@check_config_file example_host configured_world)) = fs configured_world /\
  forall c, fst (@check_config_file example_host configured_world) = Exit c -> c = 1.
Proof.
  apply (@existing_config_is_kept example_host configured_world).
  vm_compute. eauto.
Defined.

(** X11. With a config file whose [scar] section names a role, on a
    descriptor the section can be loaded into, [check_config_file] returns
    normally: the descriptor holds the values of the file, the role among
    them, and nothing is written or logged. *)
Theorem configured_run_passes `{Hst : Host} (w w' : world)
    (cfg : list (string * list (string * string))) (section : list (string * string))
    (role : string) :
  fs_files (fs w) !! config_file_path = Some (Ini cfg) ->
  dict_get "scar" cfg = Some section ->
  dict_get "lambda_role" section = Some role -> role <> "" ->
  parse_config_file_values cfg w = (Ok tt, w') ->
  check_config_file w = (Ok tt, w') /\
  self w' !! "role" = Some (VStr role) /\
  fs w' = fs w /\ log w' = log w /\ stdout w' = stdout w.
Proof.
  intros Hfile Hsection Hrole Hne Hparse.
  destruct (parse_config_file_values_role cfg section w w' Hsection Hparse)
    as (role0 & _ & Hrole').
  unfold config_get in Hrole'. rewrite Hrole in Hrole'.
  assert (Hkeep : forall B (obs : world -> B),
            (forall a v w0, obs (snd (setattr a v w0)) = obs w0) -> obs w' = obs w).
  { intros B obs Hobs.
    assert (Hk : keeps obs (parse_config_file_values cfg)).
    { unfold parse_config_file_values. rewrite Hsection.
      repeat (apply keeps_bind; [|intros]);
        first [ apply keeps_getattr | apply keeps_lift | intros w0; apply Hobs ]. }
    specialize (Hk w). now rewrite Hparse in Hk. }
  split; [|split; [exact Hrole'|]].
  - unfold check_config_file.
    rewrite (bind_step _ _ _ _ _ (os_path_isfile_some _ _ _ Hfile)).
    rewrite (bind_step _ _ w w' tt).
    + unfold validate_lambda_configuration.
      rewrite (bind_step _ _ _ _ _ (getattr_some _ _ _ Hrole')).
      destruct role; [congruence | reflexivity].
    + now rewrite (bind_step _ _ _ _ _ (config_read_ini w cfg Hfile)).
  - split; [|split]; apply Hkeep; reflexivity.
Qed.

Lemma configured_run_passes_witness :
  @check_config_file example_host configured_world
  = (Ok tt, snd (parse_config_file_values [("scar", configured_section)] configured_world)) /\
  self (snd (parse_config_file_values [("scar", configured_section)] configured_world))
    !! "role" = Some (VStr "arn:aws:iam::123456789012:role/lambda") /\
  fs (snd (parse_config_file_values [("scar", configured_section)] configured_world))
  = fs configured_world /\
  log (snd (parse_config_file_values [("scar", configured_section)] configured_world))
  = log configured_world /\
  stdout (snd (parse_config_file_values [("scar", configured_section)] configured_world))
  = stdout configured_world.
Proof.
  apply (@configured_run_passes example_host configured_world _
           [("scar", configured_section)] configured_section
           "arn:aws:iam::123456789012:role/lambda").
  - vm_compute. reflexivity.
  - reflexivity.
  - reflexivity.
  - discriminate.
  - apply (run_ok (parse_config_file_values [("scar", configured_section)])).
    vm_compute. reflexivity.
Defined.

(** ** Methods that only read *)


(** ** What a binding pass can reach *)

Ltac split_ands :=
  repeat match goal with H : _ /\ _ |- _ => destruct H end.

Ltac open_footprint H :=
  match type of H with
  | ?a ∉ ?l => let l' := eval vm_compute in l in change (a ∉ l') in H
  end;
  rewrite ?not_elem_of_cons in H; split_ands.

Ltac frames_open :=
  repeat first [ apply frames_setattr; congruence | frames_step ].

Lemma frames_setter `{Client : AWSClient} `{Hst : Host}
    (a method_name : string) (method : pyval -> M unit) (value : pyval) :
  dict_get method_name setters = Some method ->
  a ∉ method_footprint method_name ->
  frames a (method value).
Proof.
  intros Hm Ha. apply dict_get_In in Hm. unfold setters in Hm. simpl in Hm.
  repeat (destruct Hm as [[= <- <-]|Hm];
          [open_footprint Ha; try apply frames_raise|]); try contradiction.
  - unfold set_log_stream_name. frames_open.
  - unfold set_request_id. frames_open.
  - unfold set_payload. frames_open.
  - unfold set_cont_args. frames_open.
  - unfold set_async, set_asynchronous_call_parameters,
      set_request_response_call_parameters. frames_open.
  - unfold set_func. frames_open.
  - unfold set_name, finish_failed_execution. frames_open.
  - unfold set_image_id, set_name, finish_failed_execution. frames_open.
  - unfold set_memory. frames_open.
  - unfold set_time. frames_open.
  - unfold set_timeout_threshold. frames_open.
  - unfold set_json. frames_open.
  - unfold set_verbose. frames_open.
  - unfold set_script. frames_open.
  - unfold set_event_source. frames_open.
  - unfold set_event_source_file_name. frames_open.
  - unfold set_lambda_role. frames_open.
  - unfold set_recursive. frames_open.
  - unfold set_preheat. frames_open.
  - unfold set_extra_payload. frames_open.
  - unfold set_environment_variables, set_environment_variable_from.
    frames_open; now apply frames_set_evironment_variable.
  - unfold set_all. frames_open.
Qed.

Lemma frames_derived `{Client : AWSClient} `{Hst : Host}
    (a : string) (args : list (string * pyval)) :
  a ∉ derived_attributes -> frames a (derive_attributes args).
Proof. intros Ha. open_footprint Ha. now apply frames_derive_attributes. Qed.

Lemma frames_bound_call `{Client : AWSClient} `{Hst : Host}
    (a : string) (attr : string) (value : pyval) :
  a ∉ footprint attr ->
  frames a (method <~ get_method ("set_" ++ attr) ;; method value).
Proof.
  intros Ha. unfold footprint in Ha. apply frames_bind_ok.
  - unfold get_method. frames_go.
  - intros method w w' Hget. unfold get_method in Hget.
    destruct (String.eqb_spec ("set_" ++ attr) "set_attributes") as [Heq|_].
    + injection Hget as <- _. rewrite Heq in Ha.
      apply frames_bind; [apply frames_lift | intros]. now apply frames_derived.
    + destruct (dict_get ("set_" ++ attr) setters) as [m|] eqn:Hm; [|discriminate Hget].
      injection Hget as <- _. now apply (frames_setter a ("set_" ++ attr)).
Qed.

Lemma frames_bind_attribute `{Client : AWSClient} `{Hst : Host}
    (a : string) (args : list (string * pyval)) (attr : string) :
  a ∉ footprint attr -> frames a (bind_attribute args attr).
Proof.
  intros Ha. unfold bind_attribute.
  apply frames_try_except; [|intros; apply frames_logging].
  pose proof (frames_bound_call a attr (get_argument_value args attr) Ha) as Hcall.
  destruct (get_argument_value args attr); first [apply frames_ret | exact Hcall].
Qed.

Lemma existsb_elem_of (a : string) (l : list string) :
  existsb (String.eqb a) l = true <-> a ∈ l.
Proof.
  rewrite existsb_exists, list_elem_of_In. split.
  - intros (x & Hx & Heq). now apply String.eqb_eq in Heq as ->.
  - intros Ha. exists a. split; [exact Ha | apply String.eqb_refl].
Qed.

Lemma not_elem_of_test (a : string) (l : list string) :
  existsb (String.eqb a) l = false -> a ∉ l.
Proof. intros Hl Ha. apply existsb_elem_of in Ha. congruence. Qed.

Lemma footprints_are_bound :
  forallb (fun p => forallb (fun x => existsb (String.eqb x) bound_attributes) (snd p))
          setter_footprints = true.
Proof. vm_compute. reflexivity. Qed.

Lemma footprint_bound (a : string) (method_name : string) :
  a ∈ method_footprint method_name -> a ∈ bound_attributes.
Proof.
  unfold method_footprint.
  destruct (dict_get method_name setter_footprints) as [l|] eqn:Hl;
    [|intros Hin; now apply elem_of_nil in Hin].
  apply dict_get_In in Hl. intros Ha.
  pose proof footprints_are_bound as Hall. rewrite forallb_forall in Hall.
  specialize (Hall _ Hl). cbv beta in Hall. cbn [snd] in Hall.
  rewrite forallb_forall in Hall. apply existsb_elem_of. apply Hall. now apply list_elem_of_In.
Qed.

(** X13. Binding one argument changes, of the attributes of the
    descriptor, only those of its setter: an attribute outside the
    footprint of [attr] is left as it was by [bind_attribute], whatever the
    value and whether or not the setter fails. *)
Theorem binding_footprint `{Client : AWSClient} `{Hst : Host}
    (a : string) (args : list (string * pyval)) (attr : string) :
  a ∉ footprint attr ->
  forall w, self (snd (bind_attribute args attr w)) !! a = self w !! a.
Proof.
  intros Ha w. pose proof (frames_bind_attribute a args attr Ha) as Hframe.
  exact (Hframe w).
Qed.

Lemma binding_footprint_witness :
  self (snd (@bind_attribute strict_client example_host
               [("image_id", VStr "grycap/cowsay")] "image_id" fresh_world)) !! "memory"
  = self fresh_world !! "memory".
Proof.
  apply (@binding_footprint strict_client example_host "memory"
           [("image_id", VStr "grycap/cowsay")] "image_id").
  apply not_elem_of_test. reflexivity.
Defined.

(** X14. A binding pass assigns no attribute but the twenty-seven of
    [bound_attributes]: every other one (the region, the runtime, the
    role, the description, the path of the archive, the udocker paths, the
    client) is after [set_attributes] what it was before, whatever the
    arguments and however the pass ends. *)
Theorem binding_frame `{Client : AWSClient} `{Hst : Host}
    (a : string) (args : list (string * pyval)) :
  a ∉ bound_attributes -> frames a (set_attributes args).
Proof.
  intros Ha. unfold set_attributes. apply frames_bind.
  - apply frames_for_each. intros attr. apply frames_bind_attribute.
    intros Hin. apply Ha. exact (footprint_bound _ _ Hin).
  - intros _. apply frames_derived. intros Hin. apply Ha.
    exact (footprint_bound a "set_attributes" Hin).
Qed.

Lemma binding_frame_witness :
  self (snd (@set_attributes example_client example_host
               [("name", VStr "myfunc"); ("region", VStr "eu-west-1")] fresh_world))
    !! "region"
  = self fresh_world !! "region".
Proof.
  apply (@binding_frame example_client example_host "region"
           [("name", VStr "myfunc"); ("region", VStr "eu-west-1")]).
  apply not_elem_of_test. reflexivity.
Defined.

(** X15. [has_verbose_output] and [has_json_output] read the attributes
    [verbose_output] and [json_output], which [__init__] does not create
    and no binding pass assigns: on a descriptor that was created and
    bound, with any arguments, both raise [AttributeError]. *)
Theorem output_accessors_raise `{Client : AWSClient} `{Hst : Host}
    (args : list (string * pyval)) (files : filesystem)
    (records : list (string * string)) (out : list string) :
  let w := snd (set_attributes args (World init_self files records out)) in
  has_verbose_output w
  = (Raise (attribute_error "'AWSLambda' object has no attribute 'verbose_output'"), w) /\
  has_json_output w
  = (Raise (attribute_error "'AWSLambda' object has no attribute 'json_output'"), w).
Proof.
  intros w.
  assert (Hmissing : forall a, a ∉ bound_attributes -> init_self !! a = None ->
                               getattr a w
                               = (Raise (attribute_error
                                    ("'AWSLambda' object has no attribute '" ++ a ++ "'")), w)).
  { intros a Ha Hinit. unfold getattr.
    assert (Hframe : frames a (set_attributes args)).
    { unfold set_attributes. apply frames_bind.
      - apply frames_for_each. intros attr. apply frames_bind_attribute.
        intros Hin. apply Ha. exact (footprint_bound _ _ Hin).
      - intros _. apply frames_derived. intros Hin. apply Ha.
        exact (footprint_bound a "set_attributes" Hin). }
    unfold w. rewrite (Hframe (World init_self files records out)).
    change (self (World init_self files records out) !! a) with (init_self !! a).
    now rewrite Hinit. }
  split; apply Hmissing;
    first [ apply not_elem_of_test; reflexivity | vm_compute; reflexivity ].
Qed.

(** ** The invocation mode *)

Lemma stable_bind {A B : Type} (I : world -> Prop) (m : M A) (k : A -> M B) :
  stable I m -> (forall x, stable I (k x)) -> stable I (bind m k).
Proof.
  intros Hm Hk w Hw. unfold bind. specialize (Hm w Hw).
  destruct (m w) as [[x|e|c] w1]; simpl in *; [|exact Hm..].
  now apply Hk.
Qed.

Lemma stable_try_except {A : Type} (I : world -> Prop) (body : M A) (handler : exn -> M A) :
  stable I body -> (forall e, stable I (handler e)) -> stable I (try_except body handler).
Proof.
  intros Hb Hh w Hw. unfold try_except. specialize (Hb w Hw).
  destruct (body w) as [[x|e|c] w1]; simpl in *; [exact Hb| |exact Hb].
  now apply Hh.
Qed.

Lemma stable_for_each {A : Type} (I : world -> Prop) (body : A -> M unit) (l : list A) :
  (forall x, stable I (body x)) -> stable I (for_each body l).
Proof.
  intros Hb. induction l as [|x l IH]; simpl; [now intros w|].
  apply stable_bind; auto.
Qed.

Lemma frames_stable_mode {A : Type} (m : M A) :
  (forall a, a ∈ mode_attributes -> frames a m) -> stable mode_consistent m.
Proof.
  intros Hm w [b (H1 & H2 & H3)]. exists b. unfold mode_of.
  rewrite (Hm "asynchronous_call"), (Hm "invocation_type"), (Hm "log_type");
    [now repeat split | unfold mode_attributes; rewrite !elem_of_cons; auto..].
Qed.

Lemma set_async_mode `{Hst : Host} (value : pyval) (w : world) :
  mode_of (py_truthy value) (snd (set_async value w)).
Proof.
  unfold set_async, set_asynchronous_call_parameters,
    set_request_response_call_parameters, mode_of, bind, setattr.
  destruct (py_truthy value); cbn [self snd]; repeat split;
    repeat (rewrite lookup_insert_ne by discriminate); apply lookup_insert_eq.
Qed.

Lemma mode_footprints :
  forallb (fun p => String.eqb (fst p) "set_async"
                    || forallb (fun x => negb (existsb (String.eqb x) mode_attributes))
                               (snd p))
          setter_footprints = true.
Proof. vm_compute. reflexivity. Qed.

Lemma mode_outside_footprint (a attr : string) :
  a ∈ mode_attributes -> attr <> "async" -> a ∉ footprint attr.
Proof.
  intros Ha Hattr Hin. unfold footprint, method_footprint in Hin.
  destruct (dict_get ("set_" ++ attr) setter_footprints) as [l|] eqn:Hl;
    [|now apply elem_of_nil in Hin].
  apply dict_get_In in Hl.
  pose proof mode_footprints as Hall. rewrite forallb_forall in Hall.
  specialize (Hall _ Hl). cbv beta in Hall. cbn [fst snd] in Hall.
  apply orb_true_iff in Hall as [Hname|Hall].
  - apply String.eqb_eq in Hname. apply Hattr.
    vm_compute in Hname. now injection Hname as ->.
  - rewrite forallb_forall in Hall. apply list_elem_of_In, Hall in Hin.
    apply existsb_elem_of in Ha. rewrite Ha in Hin. discriminate Hin.
Qed.

Lemma stable_mode_bind_attribute `{Client : AWSClient} `{Hst : Host}
    (args : list (string * pyval)) (attr : string) :
  stable mode_consistent (bind_attribute args attr).
Proof.
  destruct (String.eqb_spec attr "async") as [->|Hattr].
  - unfold bind_attribute.
    apply stable_try_except;
      [|intros e; apply frames_stable_mode; intros; apply frames_logging].
    assert (Hcall : stable mode_consistent
              (method <~ get_method ("set_" ++ "async") ;;
               method (get_argument_value args "async"))).
    { change (get_method ("set_" ++ "async")) with (ret set_async).
      intros w _. eexists. apply set_async_mode. }
    destruct (get_argument_value args "async"); first [now intros w | exact Hcall].
  - apply frames_stable_mode. intros a Ha. apply frames_bind_attribute.
    now apply mode_outside_footprint.
Qed.

(** X16. The invocation mode stays consistent through a binding pass: if
    the asynchronous flag, the invocation type and the log type agree
    before [set_attributes] (asynchronous with [Event] and no log,
    synchronous with [RequestResponse] and the log tail, as [__init__]
    leaves them), they agree after it, whatever the arguments; and
    [is_asynchronous] then tells the mode the invocation type has. *)
Theorem mode_stays_consistent `{Client : AWSClient} `{Hst : Host}
    (args : list (string * pyval)) (w : world) :
  mode_consistent w ->
  exists b,
    mode_of b (snd (set_attributes args w)) /\
    is_asynchronous (snd (set_attributes args w))
    = (Ok (VBool b), snd (set_attributes args w)).
Proof.
  intros Hw.
  assert (Hstable : stable mode_consistent (set_attributes args)).
  { unfold set_attributes. apply stable_bind.
    - apply stable_for_each. intros attr. apply stable_mode_bind_attribute.
    - intros _. apply frames_stable_mode. intros a Ha. apply frames_derived.
      unfold mode_attributes in Ha. rewrite !elem_of_cons in Ha.
      destruct Ha as [->|[->|[->|Ha]]]; [| | |now apply elem_of_nil in Ha];
        apply not_elem_of_test; reflexivity. }
  destruct (Hstable w Hw) as [b Hb]. exists b. split; [exact Hb|].
  destruct Hb as (Hasync & _). unfold is_asynchronous. now apply getattr_some.
Qed.

Lemma mode_stays_consistent_witness :
  exists b,
    mode_of b (snd (@set_attributes example_client example_host
                      [("async", VBool true); ("name", VStr "myfunc")] fresh_world)) /\
    is_asynchronous (snd (@set_attributes example_client example_host
                            [("async", VBool true); ("name", VStr "myfunc")] fresh_world))
    = (Ok (VBool b),
       snd (@set_attributes example_client example_host
              [("async", VBool true); ("name", VStr "myfunc")] fresh_world)).
Proof.
  apply (@mode_stays_consistent example_client example_host).
  exists false. vm_compute. repeat split.
Defined.

(** ** Arguments that are not given *)

Lemma get_argument_value_none (args : list (string * pyval)) (attr : string) :
  Forall (fun p => snd p = VNone) args -> get_argument_value args attr = VNone.
Proof.
  intros Hargs. unfold get_argument_value.
  destruct (dict_get attr args) as [v|] eqn:Hv; [|reflexivity].
  apply dict_get_In in Hv. rewrite Forall_forall in Hargs.
  apply list_elem_of_In, Hargs in Hv. exact Hv.
Qed.

(** X17. An argument whose value is [None] is skipped without looking for
    its setter: when every argument is [None], the loop of
    [set_attributes] changes nothing and logs nothing, also for arguments
    no setter exists for, and the pass amounts to the derivation. *)
Theorem none_arguments_are_skipped `{Client : AWSClient} `{Hst : Host}
    (args : list (string * pyval)) (w : world) :
  Forall (fun p => snd p = VNone) args ->
  (forall attrs, for_each (bind_attribute args) attrs w = (Ok tt, w)) /\
  set_attributes args w = derive_attributes args w.
Proof.
  intros Hargs.
  assert (Hloop : forall attrs, for_each (bind_attribute args) attrs w = (Ok tt, w)).
  { induction attrs as [|attr attrs IH]; [reflexivity|]. cbn [for_each].
    unfold bind at 1. unfold bind_attribute at 1.
    rewrite (get_argument_value_none args attr Hargs). exact IH. }
  split; [exact Hloop|]. unfold set_attributes.
  now rewrite (bind_step _ _ _ _ _ (Hloop (dict_keys args))).
Qed.

Lemma none_arguments_are_skipped_witness :
  (forall attrs,
     for_each (@bind_attribute example_client example_host
                 [("name", VNone); ("verbosity", VNone)]) attrs fresh_world
     = (Ok tt, fresh_world)) /\
  @set_attributes example_client example_host [("name", VNone); ("verbosity", VNone)]
    fresh_world
  = @derive_attributes example_client example_host [("name", VNone); ("verbosity", VNone)]
      fresh_world.
Proof.
  apply (@none_arguments_are_skipped example_client example_host).
  repeat constructor.
Defined.

(** ** The output format *)

(** X18. [set_json] and [set_verbose] select an output format only for a
    true flag; a false flag leaves the format as it is. Called one after
    the other with two true flags, the later call decides. *)
Theorem output_selection (json verbose : pyval) (w : world) :
  self (snd ((set_json json ;; set_verbose verbose) w)) !! "output"
  = (if py_truthy verbose then Some (VEnum VERBOSE)
     else if py_truthy json then Some (VEnum JSON)
     else self w !! "output") /\
  self (snd ((set_verbose verbose ;; set_json json) w)) !! "output"
  = (if py_truthy json then Some (VEnum JSON)
     else if py_truthy verbose then Some (VEnum VERBOSE)
     else self w !! "output").
Proof.
  unfold set_json, set_verbose, bind, setattr, ret.
  destruct (py_truthy json), (py_truthy verbose); simpl;
    rewrite ?lookup_insert_eq; split; reflexivity.
Qed.

(** ** Building the archive *)













(** ** Tags *)

(** X22. [set_tags] stores [createdby] before it asks the client for the
    owner: when the client answers, both tags are stored, the ones that
    were there kept; when the client fails, the failure is passed on and
    [createdby] is already stored. *)
Theorem set_tags_spec `{Client : AWSClient} (w : world) (tags : list (string * pyval)) :
  self w !! "tags" = Some (VDict tags) ->
  set_tags w
  = match get_user_name_or_id with
    | Ok owner =>
        (Ok tt, assigned "tags"
                  (VDict (dict_set "owner" owner (dict_set "createdby" (VStr "scar") tags))) w)
    | Raise e =>
        (Raise e, assigned "tags" (VDict (dict_set "createdby" (VStr "scar") tags)) w)
    | Exit c =>
        (Exit c, assigned "tags" (VDict (dict_set "createdby" (VStr "scar") tags)) w)
    end.
Proof.
  intros Htags. unfold set_tags.
  rewrite (bind_step _ _ _ _ _ (getattr_some _ _ _ Htags)).
  unfold lift at 1. unfold bind at 1. cbn [setitem].
  set (w1 := assigned "tags" (VDict (dict_set "createdby" (VStr "scar") tags)) w).
  rewrite (bind_step (setattr "tags" _) _ w w1 tt eq_refl).
  unfold lift at 1. unfold bind at 1.
  destruct get_user_name_or_id as [owner|e|c]; [|reflexivity..].
  rewrite (bind_step _ _ _ _ _ (getattr_some "tags" w1 _ (lookup_insert_eq _ _ _))).
  unfold lift, bind, setattr. cbn [setitem]. unfold w1, assigned. cbn [self fs log stdout].
  now rewrite insert_insert_eq.
Qed.

Lemma set_tags_spec_witness :
  @set_tags example_client fresh_world
  = (Ok tt, assigned "tags"
              (VDict (dict_set "owner" (VStr "user") (dict_set "createdby" (VStr "scar") [])))
              fresh_world).
Proof.
  apply (@set_tags_spec example_client fresh_world []). vm_compute. reflexivity.
Defined.
